(** * file_copy_tool: index, match and incremental copy

    A shallow embedding of the core of [file_copy_tool.py]
    ([ConfigManager], [DirectoryMatcher], [IncrementalCopier],
    [MainController._execute_copy]) together with the small part of the
    Python runtime it calls ([str] methods, [posixpath], [os.walk],
    [shutil.copy2], [strftime], the interpolation of [configparser]).

    Conventions:
    - a Python [str] is a Rocq [string], i.e. its UTF-8 bytes; the
      characters the code inspects (['/'] and ['.']) are ASCII, and suffix
      tests on well-formed UTF-8 agree with suffix tests on code points;
    - [os.path] is [posixpath];
    - a [dict] is a [gmap]; the loop counters are [nat];
    - the file system is explicit state.  Every path string names at most
      one object (no symbolic links, no two spellings of one path). *)

From Stdlib Require Import ZArith Ascii String.
From stdpp Require Import gmap strings list fin_maps pretty.

Open Scope string_scope.

(** ** Python [str] operations *)

Module py.

(** [s[n:]] for [0 <= n]. *)
Fixpoint drop (n : nat) (s : string) : string :=
  match n, s with
  | O, _ => s
  | S n', String _ s' => drop n' s'
  | S _, EmptyString => EmptyString
  end.

(** [s[:n]] for [0 <= n]. *)
Fixpoint take (n : nat) (s : string) : string :=
  match n, s with
  | O, _ => EmptyString
  | S n', String c s' => String c (take n' s')
  | S _, EmptyString => EmptyString
  end.

(** [s[i:i+1]] for [0 <= i]: the empty string when out of range. *)
Definition at1 (s : string) (i : Z) : string :=
  take 1 (drop (Z.to_nat i) s).

Fixpoint rfind_from (c : ascii) (s : string) (i : Z) (found : Z) : Z :=
  match s with
  | EmptyString => found
  | String a s' => rfind_from c s' (i + 1) (if Ascii.eqb a c then i else found)
  end.

(** [s.rfind(c)] for a one-character [c]: the highest index, or [-1]. *)
Definition rfind (s : string) (c : ascii) : Z := rfind_from c s 0 (-1).

(** [s.startswith(prefix)]. *)
Fixpoint startswith (s prefix : string) {struct prefix} : bool :=
  match prefix, s with
  | EmptyString, _ => true
  | String _ _, EmptyString => false
  | String a prefix', String b s' => Ascii.eqb a b && startswith s' prefix'
  end.

(** [s.endswith(suffix)]. *)
Definition endswith (s suffix : string) : bool :=
  (String.length suffix <=? String.length s)%nat
  && String.eqb (drop (String.length s - String.length suffix) s) suffix.

(** [c * n]. *)
Fixpoint times (c : ascii) (n : nat) : string :=
  match n with
  | O => EmptyString
  | S n' => String c (times c n')
  end.

(** [s.rstrip(c)] for a one-character [c]. *)
Fixpoint rstrip (s : string) (c : ascii) : string :=
  match s with
  | EmptyString => EmptyString
  | String a s' =>
      match rstrip s' c with
      | EmptyString => if Ascii.eqb a c then EmptyString else String a EmptyString
      | r => String a r
      end
  end.

(** The line feed character. *)
Definition newline : ascii := "010"%char.


(** Truthiness of a [str]: [not s] is [true] exactly for the empty one. *)
Definition not_ (s : string) : bool :=
  match s with EmptyString => true | String _ _ => false end.

End py.

(** ** [posixpath] *)

Module os_path.

Definition sep : ascii := "/"%char.
Definition extsep : ascii := "."%char.

(** [posixpath.basename]. *)
Definition basename (p : string) : string :=
  let i := (py.rfind p sep + 1)%Z in
  py.drop (Z.to_nat i) p.

(** [posixpath.dirname]. *)
Definition dirname (p : string) : string :=
  let i := (py.rfind p sep + 1)%Z in
  let head := py.take (Z.to_nat i) p in
  if negb (py.not_ head) && negb (String.eqb head (py.times sep (String.length head)))
  then py.rstrip head sep
  else head.

(** [posixpath.join(a, b)]. *)
Definition join (a b : string) : string :=
  if py.startswith b "/" then b
  else if py.not_ a || py.endswith a "/" then a ++ b
  else a ++ "/" ++ b.

(** The [while] loop of [genericpath._splitext]: is there a character
    other than the dot among the [n] characters from [filenameIndex] on? *)
Fixpoint splitext_scan (p : string) (filenameIndex : Z) (n : nat) : bool :=
  match n with
  | O => false
  | S n' =>
      if negb (String.eqb (py.at1 p filenameIndex) ".") then true
      else splitext_scan p (filenameIndex + 1) n'
  end.

(** [posixpath.splitext]: the extension is what follows the last dot of
    the last component, leading dots of that component not counted. *)
Definition splitext (p : string) : string * string :=
  let sepIndex := py.rfind p sep in
  let dotIndex := py.rfind p extsep in
  if (sepIndex <? dotIndex)%Z
     && splitext_scan p (sepIndex + 1) (Z.to_nat (dotIndex - (sepIndex + 1)))
  then (py.take (Z.to_nat dotIndex) p, py.drop (Z.to_nat dotIndex) p)
  else (p, EmptyString).

End os_path.

(** ** The file system *)

Record file := File { f_data : string; f_mtime : Z }.

(** Regular files with their bytes and modification time, the set of
  directories, and the paths that cannot be opened (permissions). *)
Record FS := MkFS {
fs_files : gmap string file;
fs_dirs : gset string;
fs_denied : gset string
}.

Inductive OSError :=
| FileNotFoundError (path : string)
| IsADirectoryError (path : string)
| PermissionError (path : string)
| SameFileError (src dst : string).

(** [str(e)]. *)
Definition str_error (e : OSError) : string :=
match e with
| FileNotFoundError p => "[Errno 2] No such file or directory: '" ++ p ++ "'"
| IsADirectoryError p => "[Errno 21] Is a directory: '" ++ p ++ "'"
| PermissionError p => "[Errno 13] Permission denied: '" ++ p ++ "'"
| SameFileError s d => "'" ++ s ++ "' and '" ++ d ++ "' are the same file"
end.

(** A directory as [os.scandir] reports it: the entries in listing order,
    each a regular file or a sub-directory with its own entries. *)
#[local] Unset Elimination Schemes.
Inductive Entry :=
  | EFile
  | EDir (children : list (string * Entry)).
#[local] Set Elimination Schemes.

Module os.

Definition is_dir (e : Entry) : bool :=
  match e with EFile => false | EDir _ => true end.

(** The two lists [os.walk] builds from one directory scan. *)
Definition scan_dirs (children : list (string * Entry)) : list string :=
  (List.filter (fun c => is_dir c.2) children).*1.

Definition scan_nondirs (children : list (string * Entry)) : list string :=
  (List.filter (fun c => negb (is_dir c.2)) children).*1.

(** [os.walk(top)], top-down: the triple [(top, dirs, nondirs)] of the
    directory itself, then the walk of each sub-directory in listing order.
    A [top] that cannot be scanned yields nothing ([onerror] is [None]). *)
Fixpoint walk (top : string) (e : Entry) : list (string * list string * list string) :=
  match e with
  | EFile => []
  | EDir children =>
      (top, scan_dirs children, scan_nondirs children)
      :: (fix walk_children (cs : list (string * Entry)) :=
            match cs with
            | [] => []
            | (dirname, c) :: cs' =>
                app (if is_dir c then walk (os_path.join top dirname) c else [])
                    (walk_children cs')
            end) children
  end.


(** [os.path.isdir]. *)
Definition isdir (fs : FS) (p : string) : bool :=
  bool_decide (p ∈ fs_dirs fs).

(** [os.path.isfile]. *)
Definition isfile (fs : FS) (p : string) : bool :=
  bool_decide (is_Some (fs_files fs !! p)).

(** [os.path.exists]. *)
Definition exists_ (fs : FS) (p : string) : bool :=
  isfile fs p || isdir fs p.

End os.

Module shutil.

(** [shutil.copy2(src, dst)]: [copyfile] followed by [copystat], so the
    new file carries the bytes and the modification time of [src].  An
    error leaves the file system as it was. *)
Definition copy2 (fs : FS) (src dst : string) : OSError + FS :=
  let dst := if os.isdir fs dst then os_path.join dst (os_path.basename src) else dst in
  if String.eqb src dst && os.exists_ fs src then inl (SameFileError src dst)
  else
    match fs_files fs !! src with
    | None =>
        if os.isdir fs src then inl (IsADirectoryError src)
        else inl (FileNotFoundError src)
    | Some f =>
        if bool_decide (src ∈ fs_denied fs) then inl (PermissionError src)
        else if os.isdir fs dst then inl (IsADirectoryError dst)
        else if negb (py.not_ (os_path.dirname dst))
                && negb (os.isdir fs (os_path.dirname dst))
        then inl (FileNotFoundError dst)
        else if bool_decide (dst ∈ fs_denied fs) then inl (PermissionError dst)
        else inr {| fs_files := <[dst := f]> (fs_files fs);
                    fs_dirs := fs_dirs fs;
                    fs_denied := fs_denied fs |}
    end.

End shutil.


(** ** [ConfigManager] *)

Record Config := MkConfig {
  source_dir : string;
  target_dir : string;
  file_extension : string
}.

(** [ConfigManager.validate_config]. *)
Definition validate_config (fs : FS) (config : Config) : bool * string :=
  if py.not_ (source_dir config) || negb (os.isdir fs (source_dir config))
  then (false, "源目录无效")
  else if py.not_ (target_dir config) || negb (os.isdir fs (target_dir config))
  then (false, "目标目录无效")
  else if py.not_ (file_extension config)
  then (false, "文件后缀不能为空")
  else (true, "配置有效").

(** ** [DirectoryMatcher] *)

Record DirectoryMatcher := MkMatcher {
  dm_target_dir : string;
  file_index : gmap string string
}.

(** [DirectoryMatcher.__init__]. *)
Definition DirectoryMatcher_init (target_dir : string) : DirectoryMatcher :=
  {| dm_target_dir := target_dir; file_index := ∅ |}.

(** The body of the inner loop: [self.file_index[splitext(file)[0]] = root]. *)
Definition index_file (root : string) (index : gmap string string) (file : string)
  : gmap string string :=
  <[ (os_path.splitext file).1 := root ]> index.

(** The body of the outer loop, for one triple of the walk. *)
Definition index_triple (index : gmap string string)
    (t : string * list string * list string) : gmap string string :=
  let '(root, _, files) := t in
  foldl (index_file root) index files.

(** [DirectoryMatcher.build_file_index]; [tree] is what the file system
    holds at [self.target_dir]. *)
Definition build_file_index (self : DirectoryMatcher) (tree : Entry) : DirectoryMatcher :=
  {| dm_target_dir := dm_target_dir self;
     file_index := foldl index_triple (file_index self) (os.walk (dm_target_dir self) tree) |}.

(** The body of the loop of [match_files]. *)
Definition match_step (index : gmap string string) (source_dir file_extension : string)
    (match_results : list (string * string)) (file : string) : list (string * string) :=
  if py.endswith file file_extension then
    let file_name_without_ext := (os_path.splitext file).1 in
    match index !! file_name_without_ext with
    | Some dir =>
        let source_path := os_path.join source_dir file in
        let target_path := os_path.join dir file in
        app match_results [(source_path, target_path)]
    | None => match_results
    end
  else match_results.

(** [DirectoryMatcher.match_files]; [listing] is [os.listdir(source_dir)]. *)
Definition match_files (self : DirectoryMatcher) (listing : list string)
    (source_dir file_extension : string) : list (string * string) :=
  foldl (match_step (file_index self) source_dir file_extension) [] listing.

(** ** [IncrementalCopier] *)

(** The three log lines of [copy_files]. *)
Definition log_skipped (source_path target_path : string) : string :=
  "跳过：" ++ os_path.basename source_path ++ " 已存在于 " ++ os_path.dirname target_path.

Definition log_copied (source_path target_path : string) : string :=
  "复制成功：" ++ os_path.basename source_path ++ " -> " ++ os_path.dirname target_path.

Definition log_failed (source_path target_path : string) (e : OSError) : string :=
  "复制失败：" ++ os_path.basename source_path ++ " -> " ++ os_path.dirname target_path
  ++ "，错误：" ++ str_error e.

(** The state the loop of [copy_files] works on: the file system,
    [self.logs] and the two local counters. *)
Record CopyRun := MkRun {
  run_fs : FS;
  logs : list string;
  copied_count : nat;
  skipped_count : nat
}.

(** One iteration of the loop of [copy_files]. *)
Definition copy_step (st : CopyRun) (pair : string * string) : CopyRun :=
  let '(source_path, target_path) := pair in
  if os.exists_ (run_fs st) target_path then
    {| run_fs := run_fs st;
       logs := app (logs st) [log_skipped source_path target_path];
       copied_count := copied_count st;
       skipped_count := skipped_count st + 1 |}
  else
    match shutil.copy2 (run_fs st) source_path target_path with
    | inr fs' =>
        {| run_fs := fs';
           logs := app (logs st) [log_copied source_path target_path];
           copied_count := copied_count st + 1;
           skipped_count := skipped_count st |}
    | inl e =>
        {| run_fs := run_fs st;
           logs := app (logs st) [log_failed source_path target_path e];
           copied_count := copied_count st;
           skipped_count := skipped_count st |}
    end.

(** [IncrementalCopier.copy_files], called on an instance whose [logs] are
    [self_logs]: the counters start at zero on every call, the log does not. *)
Definition copy_files (fs : FS) (self_logs : list string)
    (match_results : list (string * string)) : CopyRun :=
  foldl copy_step
    {| run_fs := fs; logs := self_logs; copied_count := 0; skipped_count := 0 |}
    match_results.

(** A Failed entry is told from the other two lines by its prefix. *)
Definition is_failed (log : string) : bool := py.startswith log "复制失败：".

(** ** [datetime] and [save_logs] *)

Record datetime := MkDatetime {
  year : N; month : N; day : N;
  hour : N; minute : N; second : N
}.


(** A decimal number padded with zeros to [width] characters. *)
Definition zero_pad (width : nat) (n : N) : string :=
  let s := pretty n in
  py.times "0"%char (width - String.length s) ++ s.

(** [d.strftime('%Y-%m-%d %H:%M:%S')]. *)
Definition strftime (d : datetime) : string :=
  zero_pad 4 (year d) ++ "-" ++ zero_pad 2 (month d) ++ "-" ++ zero_pad 2 (day d)
  ++ " " ++ zero_pad 2 (hour d) ++ ":" ++ zero_pad 2 (minute d) ++ ":" ++ zero_pad 2 (second d).

(** The line feed. *)
Definition LF : string := String py.newline EmptyString.

(** [IncrementalCopier.save_logs]: [store] is the content of the log file
    when it is opened in mode ['a'] (empty if the file is created), the
    result its content when it is closed.  Each [f.write] adds at the end. *)
Definition save_logs (self_logs : list string) (now : datetime) (store : string) : string :=
  let f := store in
  let f := f ++ (LF ++ py.times "="%char 50 ++ LF) in
  let f := f ++ ("操作时间：" ++ strftime now ++ LF) in
  foldl (fun f log => f ++ (log ++ LF)) f self_logs.

(** ** [MainController] *)

(** What a run of the command-line controller reads and writes: the stored
    configuration, the file system, the directory scans the operating
    system answers with, the content of [copy_log.txt], the clock and the
    lines printed so far. *)
Record World := MkWorld {
  w_config : Config;
  w_fs : FS;
  w_tree : string -> Entry;
  w_listdir : string -> list string;
  w_log : string;
  w_now : datetime;
  w_stdout : list string
}.

(** [print(line)]. *)
Definition print (line : string) (w : World) : World :=
  {| w_config := w_config w; w_fs := w_fs w; w_tree := w_tree w;
     w_listdir := w_listdir w; w_log := w_log w; w_now := w_now w;
     w_stdout := app (w_stdout w) [line] |}.

(** The file system and the log file after the copier has run. *)
Definition commit (fs : FS) (log : string) (w : World) : World :=
  {| w_config := w_config w; w_fs := fs; w_tree := w_tree w;
     w_listdir := w_listdir w; w_log := log; w_now := w_now w;
     w_stdout := w_stdout w |}.

(** [MainController._execute_copy]. *)
Definition _execute_copy (w : World) : World :=
  let config := w_config w in
  let '(is_valid, msg) := validate_config (w_fs w) config in
  if negb is_valid then
    let w := print (LF ++ "配置错误：" ++ msg) w in
    print "请先修改配置！" w
  else
    let w := print (LF ++ "开始执行文件复制...") w in
    let w := print "正在构建目标文件索引..." w in
    let matcher := DirectoryMatcher_init (target_dir config) in
    let matcher := build_file_index matcher (w_tree w (target_dir config)) in
    let w := print ("共索引到 " ++ pretty (size (file_index matcher)) ++ " 个文件") w in
    let w := print "正在匹配源文件..." w in
    let match_results :=
      match_files matcher (w_listdir w (source_dir config))
        (source_dir config) (file_extension config) in
    let w := print ("共匹配到 " ++ pretty (length match_results) ++ " 个文件") w in
    match match_results with
    | [] => print "没有找到匹配的文件，无需复制！" w
    | _ =>
        let w := print "正在执行增量复制..." w in
        let run := copy_files (w_fs w) [] match_results in
        let w := commit (run_fs run) (save_logs (logs run) (w_now w) (w_log w)) w in
        let w := print (LF ++ "复制完成！") w in
        let w := print ("成功复制：" ++ pretty (copied_count run) ++ " 个文件") w in
        let w := print ("跳过已存在：" ++ pretty (skipped_count run) ++ " 个文件") w in
        print "日志已保存到 copy_log.txt" w
    end.

(** [c in s] for a one-character [c]. *)
Fixpoint has_char (c : ascii) (s : string) : bool :=
  match s with
  | EmptyString => false
  | String a s' => Ascii.eqb a c || has_char c s'
  end.

(** ** [configparser] and the stored configuration

    [ConfigManager] keeps the three settings in the [DEFAULT] section of a
    [configparser.ConfigParser], whose values go through
    [BasicInterpolation]: a value is checked when it is set and expanded
    when it is read.  The parser is modelled by that section, a map from
    option names to raw values; the text of the configuration file is not
    modelled, the file is the map that was last written to it. *)

Module configparser.

Inductive Error :=
  | KeyError (key : string)
  | ValueError (value : string)
  | InterpolationSyntaxError (rest : string)
  | InterpolationMissingOptionError (reference : string)
  | InterpolationDepthError.

Definition percent : ascii := "%"%char.

(** [MAX_INTERPOLATION_DEPTH]. *)
Definition MAX_INTERPOLATION_DEPTH : nat := 10.

Definition lower_char (c : ascii) : ascii :=
  let n := nat_of_ascii c in
  if (65 <=? n)%nat && (n <=? 90)%nat then ascii_of_nat (n + 32) else c.

(** [optionxform], which is [str.lower]; the letters of ASCII are lowered,
    as [str.lower] does on the option names the tool uses. *)
Fixpoint optionxform (s : string) : string :=
  match s with
  | EmptyString => EmptyString
  | String c s' => String (lower_char c) (optionxform s')
  end.

(** The text up to the first closing parenthesis, and what follows it. *)
Fixpoint until_paren (s : string) : option (string * string) :=
  match s with
  | EmptyString => None
  | String c s' =>
      if Ascii.eqb c ")" then Some (EmptyString, s')
      else
        match until_paren s' with
        | Some (name, rest) => Some (String c name, rest)
        | None => None
        end
  end.

(** [_KEYCRE.match(s)] for the pattern [%\(([^)]+)\)s]: the name between
    the parentheses and the text after the match. *)
Definition key_match (s : string) : option (string * string) :=
  match s with
  | String c (String c' s') =>
      if Ascii.eqb c percent && Ascii.eqb c' "(" then
        match until_paren s' with
        | Some (String n name, String c'' rest) =>
            if Ascii.eqb c'' "s" then Some (String n name, rest) else None
        | _ => None
        end
      else None
  | _ => None
  end.

(** [value.replace('%%', '')]. *)
Fixpoint remove_escaped (s : string) : string :=
  match s with
  | EmptyString => EmptyString
  | String c s' =>
      match s' with
      | String c' s'' =>
          if Ascii.eqb c percent && Ascii.eqb c' percent then remove_escaped s''
          else String c (remove_escaped s')
      | EmptyString => String c EmptyString
      end
  end.

(** [_KEYCRE.sub('', s)]: the matches are cut out, left to right; [skip]
    counts the characters of a match that are still to be passed. *)
Fixpoint remove_keys (skip : nat) (s : string) : string :=
  match s with
  | EmptyString => EmptyString
  | String c s' =>
      match skip with
      | S k => remove_keys k s'
      | O =>
          match key_match s with
          | Some (name, _) => remove_keys (String.length name + 3) s'
          | None => String c (remove_keys 0 s')
          end
      end
  end.

(** [BasicInterpolation.before_set]. *)
Definition before_set (value : string) : Error + string :=
  let tmp_value := remove_escaped value in
  let tmp_value := remove_keys 0 tmp_value in
  if has_char percent tmp_value then inl (ValueError value) else inr value.

(** The [while] loop of [BasicInterpolation._interpolate_some] over [rest];
    [deeper] is the call of [_interpolate_some] at [depth + 1], [skip]
    counts the characters already consumed ahead. *)
Fixpoint interpolate_rest (deeper : string -> Error + string) (map : gmap string string)
    (skip : nat) (rest : string) : Error + string :=
  match rest with
  | EmptyString => inr EmptyString
  | String c rest' =>
      match skip with
      | S k => interpolate_rest deeper map k rest'
      | O =>
          if negb (Ascii.eqb c percent) then
            match interpolate_rest deeper map 0 rest' with
            | inl e => inl e
            | inr accum => inr (String c accum)
            end
          else
            match rest' with
            | String c' _ =>
                if Ascii.eqb c' percent then
                  match interpolate_rest deeper map 1 rest' with
                  | inl e => inl e
                  | inr accum => inr (String percent accum)
                  end
                else if Ascii.eqb c' "(" then
                  match key_match rest with
                  | None => inl (InterpolationSyntaxError rest)
                  | Some (name, _) =>
                      match map !! optionxform name with
                      | None => inl (InterpolationMissingOptionError (optionxform name))
                      | Some v =>
                          match (if has_char percent v then deeper v else inr v) with
                          | inl e => inl e
                          | inr expanded =>
                              match interpolate_rest deeper map
                                      (String.length name + 3) rest' with
                              | inl e => inl e
                              | inr accum => inr (expanded ++ accum)
                              end
                          end
                      end
                  end
                else inl (InterpolationSyntaxError rest)
            | EmptyString => inl (InterpolationSyntaxError rest)
            end
      end
  end.

(** [BasicInterpolation._interpolate_some] with [levels] levels of depth
    left: none is left when [depth > MAX_INTERPOLATION_DEPTH]. *)
Fixpoint interpolate_some (levels : nat) (map : gmap string string) (rest : string)
  : Error + string :=
  match levels with
  | O => inl InterpolationDepthError
  | S levels' => interpolate_rest (interpolate_some levels' map) map 0 rest
  end.

(** [BasicInterpolation.before_get]. *)
Definition before_get (map : gmap string string) (value : string) : Error + string :=
  interpolate_some MAX_INTERPOLATION_DEPTH map value.

(** [parser['DEFAULT'][opt]]. *)
Definition get (defaults : gmap string string) (opt : string) : Error + string :=
  match defaults !! optionxform opt with
  | None => inl (KeyError opt)
  | Some value => before_get defaults value
  end.

(** [parser['DEFAULT'][opt] = value]. *)
Definition set (defaults : gmap string string) (opt value : string)
  : Error + gmap string string :=
  if py.not_ value then inr (<[optionxform opt := value]> defaults)
  else
    match before_set value with
    | inl e => inl e
    | inr value => inr (<[optionxform opt := value]> defaults)
    end.

End configparser.

(** The configuration manager: the [DEFAULT] section of [self.config], and
    the options the configuration file holds, if the file exists. *)
Record ConfigManager := MkManager {
  cm_defaults : gmap string string;
  cm_file : option (gmap string string)
}.

(** [ConfigManager._create_default_config]. *)
Definition _create_default_config (self : ConfigManager) : ConfigManager :=
  let defaults :=
    <["file_extension" := ""]> (<["target_dir" := ""]> (<["source_dir" := ""]> ∅)) in
  {| cm_defaults := defaults; cm_file := Some defaults |}.

(** [ConfigManager.get_config]. *)
Definition get_config (self : ConfigManager) : configparser.Error + Config :=
  match configparser.get (cm_defaults self) "source_dir" with
  | inl e => inl e
  | inr sd =>
      match configparser.get (cm_defaults self) "target_dir" with
      | inl e => inl e
      | inr td =>
          match configparser.get (cm_defaults self) "file_extension" with
          | inl e => inl e
          | inr ext => inr (MkConfig sd td ext)
          end
      end
  end.

(** One [if ... is not None:] of [update_config]. *)
Definition set_if_given (defaults : gmap string string) (opt : string)
    (value : option string) : configparser.Error + gmap string string :=
  match value with
  | None => inr defaults
  | Some value => configparser.set defaults opt value
  end.

(** [ConfigManager.update_config]: the manager as the call leaves it, and
    the exception it raises, if any.  The file is written after the three
    assignments; an assignment that raises leaves the earlier ones done and
    the file as it was. *)
Definition update_config (self : ConfigManager)
    (source_dir target_dir file_extension : option string)
  : ConfigManager * option configparser.Error :=
  match set_if_given (cm_defaults self) "source_dir" source_dir with
  | inl e => (self, Some e)
  | inr d1 =>
      match set_if_given d1 "target_dir" target_dir with
      | inl e => (MkManager d1 (cm_file self), Some e)
      | inr d2 =>
          match set_if_given d2 "file_extension" file_extension with
          | inl e => (MkManager d2 (cm_file self), Some e)
          | inr d3 => (MkManager d3 (Some d3), None)
          end
      end
  end.

(** ** The matcher as the specification words it *)

(** The base name of a listing entry: the name with its final extension
    stripped. *)
Definition base_name (file : string) : string := (os_path.splitext file).1.

(** An entry is matched when it ends with the extension and its base name
    is a key of the index. *)
Definition is_matched (index : gmap string string) (file_extension file : string) : bool :=
  py.endswith file file_extension && bool_decide (is_Some (index !! base_name file)).

(** The pair a matched entry is emitted as. *)
Definition pair_of (index : gmap string string) (source_dir file : string) : string * string :=
  (os_path.join source_dir file, os_path.join (index !!! base_name file) file).

(** The listing entries that are matched, in listing order, each as its pair. *)
Definition matched_pairs (index : gmap string string) (listing : list string)
    (source_dir file_extension : string) : list (string * string) :=
  pair_of index source_dir <$> List.filter (is_matched index file_extension) listing.

(** ** The index as the specification words it *)

(** Every file of the walk with its base name and containing directory, in
    traversal order. *)
Definition occurrences (triples : list (string * list string * list string))
  : list (string * string) :=
  triples ≫= (fun t => (fun file => (base_name file, t.1.1)) <$> t.2).

(** The directory of the last occurrence of base name [b], if it occurs. *)
Definition last_dir (b : string) (occ : list (string * string)) : option string :=
  snd <$> last (List.filter (fun o => bool_decide (o.1 = b)) occ).

(** Recording one occurrence: the assignment of the inner loop. *)
Definition record_occurrence (index : gmap string string) (o : string * string)
  : gmap string string :=
  <[ o.1 := o.2 ]> index.

(** ** The copier as the specification words it *)

(** The log entries a call of [copy_files] added to [self.logs]. *)
Definition new_entries (self_logs : list string) (r : CopyRun) : list string :=
  drop (length self_logs) (logs r).

(** The number of Failed entries among log entries. *)
Definition failed_count (entries : list string) : nat :=
  length (List.filter is_failed entries).

(** A log entry is the entry of a pair: one of the three lines, for the
    names of that pair. *)
Definition entry_of (pair : string * string) (log : string) : Prop :=
  log = log_skipped pair.1 pair.2
  \/ log = log_copied pair.1 pair.2
  \/ exists e, log = log_failed pair.1 pair.2 e.







(** A directory setting is rejected when it is empty or does not name a
    directory. *)
Definition dir_missing (fs : FS) (dir : string) : Prop :=
  dir = EmptyString \/ os.isdir fs dir = false.






(** ** A worked run

    The target tree holds [a/report.pdf] and [a/notes.pdf]; the source
    directory holds the file [report.txt] and a sub-directory that is
    named [notes.txt]. *)

Definition demo_tree : Entry :=
  EDir [("a", EDir [("report.pdf", EFile); ("notes.pdf", EFile)])].

Definition demo_listing : list string := ["report.txt"; "notes.txt"].

Definition demo_fs : FS :=
  {| fs_files := {[ "/src/report.txt" := File "hello" 7;
                    "/tgt/a/report.pdf" := File "%PDF" 3;
                    "/tgt/a/notes.pdf" := File "%PDF" 4 ]};
     fs_dirs := {[ "/src"; "/src/notes.txt"; "/tgt"; "/tgt/a" ]};
     fs_denied := ∅ |}.

Definition demo_pairs : list (string * string) :=
  [("/src/report.txt", "/tgt/a/report.txt"); ("/src/notes.txt", "/tgt/a/notes.txt")].

Definition demo_now : datetime := MkDatetime 2024 3 9 8 5 0.

(** A source file whose name holds a line feed, which a POSIX file system
    allows and [os.listdir] returns as it is; the target tree holds a file
    of the same base name.  [newline_logs] is the log of the copier after
    the run on what the matcher emits. *)
Definition newline_name : string := "a" ++ LF ++ "b.txt".

Definition newline_tree : Entry :=
  EDir [("a", EDir [("a" ++ LF ++ "b.pdf", EFile)])].

Definition newline_fs : FS :=
  {| fs_files := {[ "/src/" ++ newline_name := File "x" 1 ]};
     fs_dirs := {[ "/src"; "/tgt"; "/tgt/a" ]};
     fs_denied := ∅ |}.

Definition newline_logs : list string :=
  logs (copy_files newline_fs []
          (match_files (build_file_index (DirectoryMatcher_init "/tgt") newline_tree)
             [newline_name] "/src" ".txt")).

(** A world whose stored configuration names no source directory. *)
Definition demo_world : World :=
  {| w_config := MkConfig "" "/tgt" ".txt";
     w_fs := demo_fs;
     w_tree := fun _ => demo_tree;
     w_listdir := fun _ => demo_listing;
     w_log := "";
     w_now := demo_now;
     w_stdout := [] |}.

(** ** Shapes of names *)

(** A name made of dots only (the empty name included). *)
Fixpoint all_dots (s : string) : bool :=
  match s with
  | EmptyString => true
  | String a s' => Ascii.eqb a os_path.extsep && all_dots s'
  end.

(** A value without percent sign: interpolation has nothing to do on it. *)
Definition plain (value : string) : bool := negb (has_char configparser.percent value).


(** The first percent sign of the value is followed by neither a percent
    sign nor an opening parenthesis. *)
Fixpoint stray_percent (value : string) : bool :=
  match value with
  | EmptyString => false
  | String c value' =>
      if Ascii.eqb c configparser.percent then
        match value' with
        | EmptyString => true
        | String c' _ => negb (Ascii.eqb c' configparser.percent) && negb (Ascii.eqb c' "(")
        end
      else stray_percent value'
  end.

(** A manager whose file holds the default configuration. *)
Definition demo_manager : ConfigManager := _create_default_config (MkManager ∅ None).

(** The pairs a run of [_execute_copy] matches in world [w]. *)
Definition world_pairs (w : World) : list (string * string) :=
  match_files
    (build_file_index (DirectoryMatcher_init (target_dir (w_config w)))
       (w_tree w (target_dir (w_config w))))
    (w_listdir w (source_dir (w_config w)))
    (source_dir (w_config w)) (file_extension (w_config w)).


Definition demo_world_md : World :=
  MkWorld (MkConfig "/src" "/tgt" ".md") demo_fs (fun _ => demo_tree)
    (fun _ => demo_listing) "kept" demo_now [].

(** * Properties *)

(** ** Strings *)

Lemma drop_all (s : string) : py.drop (String.length s) s = EmptyString.
Proof. induction s as [|a s IH]; [reflexivity | exact IH]. Qed.

Lemma endswith_empty (s : string) : py.endswith s EmptyString = true.
Proof.
  unfold py.endswith. cbn [String.length]. rewrite Nat.sub_0_r, drop_all.
  reflexivity.
Qed.

Lemma not_true_iff (s : string) : py.not_ s = true <-> s = EmptyString.
Proof. destruct s; cbn; split; congruence. Qed.

(** ** The matcher *)

Lemma match_step_spec index source_dir ext acc file :
  match_step index source_dir ext acc file
  = app acc (if is_matched index ext file then [pair_of index source_dir file] else []).
Proof.
  unfold match_step, is_matched, pair_of, base_name.
  destruct (py.endswith file ext); cbn [andb]; [|by rewrite app_nil_r].
  destruct (index !! (os_path.splitext file).1) as [dir|] eqn:Hdir.
  - rewrite bool_decide_eq_true_2 by eauto.
    by rewrite (lookup_total_correct _ _ _ Hdir).
  - rewrite bool_decide_eq_false_2 by (intros [? ?]; congruence).
    by rewrite app_nil_r.
Qed.

Lemma match_loop_spec index source_dir ext listing acc :
  foldl (match_step index source_dir ext) acc listing
  = app acc (matched_pairs index listing source_dir ext).
Proof.
  unfold matched_pairs.
  revert acc. induction listing as [|file listing IH]; intros acc; cbn [foldl List.filter].
  - by rewrite app_nil_r.
  - rewrite IH, match_step_spec, <- app_assoc. f_equal.
    by destruct (is_matched index ext file).
Qed.

(** C3. [match_files] returns exactly the listing entries that end with the
    extension and whose base name is a key of the index, in listing order,
    each as [(join source_dir name, join index[base_name] name)]; an entry
    that is not matched contributes nothing, and the function has no other
    result (no log, no error). *)
Theorem match_files_characterization (self : DirectoryMatcher) (listing : list string)
    (source_dir file_extension : string) :
  match_files self listing source_dir file_extension
  = matched_pairs (file_index self) listing source_dir file_extension.
Proof. unfold match_files. by rewrite match_loop_spec. Qed.

(** C9. [match_files] does not test the extension for emptiness: with the
    empty extension every listing entry passes the suffix test, and the
    result holds every entry whose base name is a key of the index.  Only
    [validate_config] rejects the empty extension. *)
Theorem match_files_empty_extension (self : DirectoryMatcher) (listing : list string)
    (source_dir : string) (fs : FS) (sd td : string) :
  Forall (fun file => py.endswith file EmptyString = true) listing
  /\ match_files self listing source_dir EmptyString
     = pair_of (file_index self) source_dir
       <$> List.filter (fun file => bool_decide (is_Some (file_index self !! base_name file)))
             listing
  /\ (validate_config fs (MkConfig sd td EmptyString)).1 = false.
Proof.
  split; [|split].
  - apply Forall_forall. intros file _. apply endswith_empty.
  - unfold match_files. rewrite match_loop_spec. unfold matched_pairs. cbn [app]. f_equal.
    apply filter_ext. intros file. unfold is_matched. by rewrite endswith_empty.
  - unfold validate_config. cbn.
    destruct (py.not_ sd || negb (os.isdir fs sd)); [reflexivity|].
    destruct (py.not_ td || negb (os.isdir fs td)); reflexivity.
Qed.

(** ** The index *)

Lemma index_files_occurrences root dirs files index :
  foldl (index_file root) index files
  = foldl record_occurrence index (occurrences [(root, dirs, files)]).
Proof.
  unfold occurrences. cbn. rewrite app_nil_r.
  revert index. induction files as [|file files IH]; intros index; [reflexivity|].
  cbn. by rewrite IH.
Qed.

Lemma index_walk_occurrences triples index :
  foldl index_triple index triples
  = foldl record_occurrence index (occurrences triples).
Proof.
  revert index. induction triples as [|[[root dirs] files] triples IH]; intros index.
  - reflexivity.
  - change (occurrences (((root, dirs), files) :: triples))
      with (app ((fun file => (base_name file, root)) <$> files) (occurrences triples)).
    rewrite foldl_app. cbn [foldl index_triple]. rewrite IH. f_equal.
    rewrite (index_files_occurrences root dirs). unfold occurrences. cbn.
    by rewrite app_nil_r.
Qed.

Lemma record_occurrences_lookup occ index b :
  foldl record_occurrence index occ !! b
  = match last_dir b occ with Some d => Some d | None => index !! b end.
Proof.
  unfold last_dir.
  induction occ as [|[b' d] occ IH] using rev_ind; [reflexivity|].
  rewrite foldl_app. cbn [foldl]. unfold record_occurrence at 1. cbn [fst snd].
  rewrite List.filter_app. cbn [List.filter fst].
  destruct (decide (b' = b)) as [->|Hne].
  - rewrite lookup_insert_eq, bool_decide_eq_true_2 by done.
    by rewrite last_snoc.
  - rewrite lookup_insert_ne, bool_decide_eq_false_2 by done.
    by rewrite app_nil_r.
Qed.

(** C2. After [build_file_index] on a fresh matcher the index maps every
    base name that occurs among the files of the target tree to one
    directory, the containing directory of its last occurrence in the
    order of [os.walk]; earlier occurrences leave no trace, and a base
    name that does not occur is not a key. *)
Theorem build_file_index_last_wins (target_dir : string) (tree : Entry) (b : string) :
  file_index (build_file_index (DirectoryMatcher_init target_dir) tree) !! b
  = last_dir b (occurrences (os.walk target_dir tree)).
Proof.
  cbn. rewrite index_walk_occurrences, record_occurrences_lookup.
  destruct (last_dir b _); [reflexivity | apply lookup_empty].
Qed.

(** ** The copier *)

Lemma exists_false fs p :
  os.exists_ fs p = false -> fs_files fs !! p = None /\ os.isdir fs p = false.
Proof.
  unfold os.exists_, os.isfile. intros [Hf Hd]%orb_false_iff. split; [|exact Hd].
  apply bool_decide_eq_false in Hf. by apply eq_None_not_Some.
Qed.

(** A copy onto a path that does not exist, when it succeeds, adds the file
    at that very path and changes nothing else. *)
Lemma copy2_fresh fs src dst fs' :
  os.exists_ fs dst = false ->
  shutil.copy2 fs src dst = inr fs' ->
  exists f, fs_files fs !! src = Some f
    /\ fs' = MkFS (<[dst := f]> (fs_files fs)) (fs_dirs fs) (fs_denied fs).
Proof.
  intros [_ Hd]%exists_false. unfold shutil.copy2. rewrite Hd.
  destruct (_ && _); [discriminate|].
  destruct (fs_files fs !! src) as [f|]; [|destruct (os.isdir fs src); discriminate].
  repeat (match goal with |- context [if ?c then _ else _] => destruct c end;
          try discriminate).
  intros [= <-]. eauto.
Qed.

Lemma copy_step_frame st pair p :
  os.exists_ (run_fs st) p = true ->
  os.exists_ (run_fs (copy_step st pair)) p = true
  /\ fs_files (run_fs (copy_step st pair)) !! p = fs_files (run_fs st) !! p.
Proof.
  intros Hp. destruct pair as [s t]. unfold copy_step.
  destruct (os.exists_ (run_fs st) t) eqn:Ht; [done|].
  destruct (shutil.copy2 (run_fs st) s t) as [e|fs'] eqn:Hc; [done|].
  destruct (copy2_fresh _ _ _ _ Ht Hc) as (f & _ & ->). cbn.
  assert (t <> p) as Hne by (intros ->; congruence).
  split; [|by rewrite lookup_insert_ne].
  revert Hp. unfold os.exists_, os.isfile, os.isdir. cbn.
  by rewrite lookup_insert_ne.
Qed.

Lemma copy_loop_frame pairs st p :
  os.exists_ (run_fs st) p = true ->
  os.exists_ (run_fs (foldl copy_step st pairs)) p = true
  /\ fs_files (run_fs (foldl copy_step st pairs)) !! p = fs_files (run_fs st) !! p.
Proof.
  revert st. induction pairs as [|pair pairs IH]; intros st Hp; [done|].
  cbn [foldl]. destruct (copy_step_frame st pair p Hp) as [Hp' Heq].
  destruct (IH _ Hp') as [? ->]. done.
Qed.

Lemma copy_step_skip st s t :
  os.exists_ (run_fs st) t = true ->
  copy_step st (s, t)
  = MkRun (run_fs st) (app (logs st) [log_skipped s t])
      (copied_count st) (skipped_count st + 1).
Proof. intros Ht. unfold copy_step. by rewrite Ht. Qed.

Lemma copy_step_fail st s t e :
  os.exists_ (run_fs st) t = false ->
  shutil.copy2 (run_fs st) s t = inl e ->
  copy_step st (s, t)
  = MkRun (run_fs st) (app (logs st) [log_failed s t e])
      (copied_count st) (skipped_count st).
Proof. intros Ht Hc. unfold copy_step. by rewrite Ht, Hc. Qed.

Lemma copy_files_app fs self_logs before after :
  copy_files fs self_logs (app before after)
  = foldl copy_step (copy_files fs self_logs before) after.
Proof. unfold copy_files. apply foldl_app. Qed.

(** The three lines are told apart by their prefix. *)
Lemma is_failed_log_failed s t e : is_failed (log_failed s t e) = true.
Proof. reflexivity. Qed.

Lemma is_failed_log_skipped s t : is_failed (log_skipped s t) = false.
Proof. reflexivity. Qed.

Lemma is_failed_log_copied s t : is_failed (log_copied s t) = false.
Proof. reflexivity. Qed.

(** What one iteration does to the log and to the counters, whatever its
    outcome: one entry more, and the counters together grow by one unless
    that entry is a Failed one. *)
Lemma copy_step_account st pair :
  exists log,
    logs (copy_step st pair) = app (logs st) [log]
    /\ entry_of pair log
    /\ copied_count (copy_step st pair) + skipped_count (copy_step st pair)
       + (if is_failed log then 1 else 0)
       = copied_count st + skipped_count st + 1.
Proof.
  destruct pair as [s t]. unfold copy_step, entry_of. cbn [fst snd].
  destruct (os.exists_ (run_fs st) t).
  - eexists. split; [reflexivity|]. split; [by left|].
    rewrite is_failed_log_skipped. cbn. lia.
  - destruct (shutil.copy2 (run_fs st) s t) as [e|fs'].
    + eexists. split; [reflexivity|]. split; [right; right; by eexists|].
      rewrite is_failed_log_failed. cbn. lia.
    + eexists. split; [reflexivity|]. split; [right; by left|].
      rewrite is_failed_log_copied. cbn. lia.
Qed.

Lemma copy_loop_account pairs st :
  exists entries,
    logs (foldl copy_step st pairs) = app (logs st) entries
    /\ Forall2 entry_of pairs entries
    /\ copied_count (foldl copy_step st pairs) + skipped_count (foldl copy_step st pairs)
       + failed_count entries
       = copied_count st + skipped_count st + length pairs.
Proof.
  revert st. induction pairs as [|pair pairs IH]; intros st.
  - exists []. cbn. rewrite app_nil_r. split; [done|]. split; [constructor|lia].
  - cbn [foldl]. destruct (copy_step_account st pair) as (log & Hlog & Hof & Hn).
    destruct (IH (copy_step st pair)) as (entries & Hlogs & Hall & Hsum).
    exists (log :: entries). rewrite Hlogs, Hlog, <- app_assoc.
    split; [done|]. split; [by constructor|].
    unfold failed_count in *. cbn [List.filter length].
    destruct (is_failed log); cbn [length] in *; lia.
Qed.

Lemma new_entries_app self_logs entries r :
  logs r = app self_logs entries -> new_entries self_logs r = entries.
Proof. unfold new_entries. intros ->. by rewrite drop_app_length. Qed.

(** When every target exists the loop only skips. *)
Lemma copy_loop_all_exist pairs st :
  Forall (fun pair => os.exists_ (run_fs st) pair.2 = true) pairs ->
  foldl copy_step st pairs
  = MkRun (run_fs st) (app (logs st) ((fun pair => log_skipped pair.1 pair.2) <$> pairs))
      (copied_count st) (skipped_count st + length pairs).
Proof.
  revert st. induction pairs as [|[s t] pairs IH]; intros st Hall.
  - destruct st. cbn. by rewrite app_nil_r, Nat.add_0_r.
  - apply Forall_cons in Hall as [Ht Hall]. cbn [foldl snd] in *.
    rewrite copy_step_skip by done. rewrite IH by done. cbn.
    rewrite <- app_assoc. f_equal. lia.
Qed.

Lemma copy_step_bound st pair :
  copied_count (copy_step st pair) + skipped_count (copy_step st pair)
  <= copied_count st + skipped_count st + 1.
Proof.
  destruct (copy_step_account st pair) as (log & _ & _ & Hn).
  destruct (is_failed log); lia.
Qed.

Lemma copy_loop_bound pairs st :
  copied_count (foldl copy_step st pairs) + skipped_count (foldl copy_step st pairs)
  <= copied_count st + skipped_count st + length pairs.
Proof.
  destruct (copy_loop_account pairs st) as (entries & _ & _ & Hn). lia.
Qed.

(** An iteration that counts leaves its target in place. *)
Lemma copy_step_counted st pair :
  copied_count (copy_step st pair) + skipped_count (copy_step st pair)
  = copied_count st + skipped_count st + 1 ->
  os.exists_ (run_fs (copy_step st pair)) pair.2 = true.
Proof.
  destruct pair as [s t]. unfold copy_step. cbn [snd].
  destruct (os.exists_ (run_fs st) t) eqn:Ht; [done|].
  destruct (shutil.copy2 (run_fs st) s t) as [e|fs'] eqn:Hc; cbn; [lia|].
  intros _. destruct (copy2_fresh _ _ _ _ Ht Hc) as (f & _ & ->).
  unfold os.exists_, os.isfile. cbn. rewrite lookup_insert_eq.
  by rewrite bool_decide_eq_true_2 by eauto.
Qed.

(** A run in which every pair counted leaves every target in place. *)
Lemma copy_loop_all_counted pairs st :
  copied_count (foldl copy_step st pairs) + skipped_count (foldl copy_step st pairs)
  = copied_count st + skipped_count st + length pairs ->
  Forall (fun pair => os.exists_ (run_fs (foldl copy_step st pairs)) pair.2 = true) pairs.
Proof.
  revert st. induction pairs as [|pair pairs IH]; intros st Hsum; [constructor|].
  cbn [foldl length] in *.
  pose proof (copy_step_bound st pair) as Hstep.
  pose proof (copy_loop_bound pairs (copy_step st pair)) as Hrest.
  constructor.
  - apply copy_loop_frame, copy_step_counted. lia.
  - apply IH. lia.
Qed.

(** C1, as amended. After a first run of [copy_files] in which no copy
    failed (every pair was counted as copied or skipped), a second run on
    the same pairs copies nothing, skips every pair, adds one Skipped entry
    per pair and leaves the file system as the first run left it. *)
Theorem copy_files_idempotent_after_success (fs : FS) (logs1 logs2 : list string)
    (pairs : list (string * string)) :
  copied_count (copy_files fs logs1 pairs) + skipped_count (copy_files fs logs1 pairs)
  = length pairs ->
  copied_count (copy_files (run_fs (copy_files fs logs1 pairs)) logs2 pairs) = 0
  /\ skipped_count (copy_files (run_fs (copy_files fs logs1 pairs)) logs2 pairs) = length pairs
  /\ new_entries logs2 (copy_files (run_fs (copy_files fs logs1 pairs)) logs2 pairs)
     = (fun pair => log_skipped pair.1 pair.2) <$> pairs
  /\ run_fs (copy_files (run_fs (copy_files fs logs1 pairs)) logs2 pairs)
     = run_fs (copy_files fs logs1 pairs).
Proof.
  intros Hsum.
  assert (Forall (fun pair => os.exists_ (run_fs (copy_files fs logs1 pairs)) pair.2 = true)
            pairs) as Hall.
  { unfold copy_files in *. apply copy_loop_all_counted. cbn. lia. }
  set (fs1 := run_fs (copy_files fs logs1 pairs)) in *.
  unfold copy_files. rewrite copy_loop_all_exist by exact Hall.
  cbn. repeat split. apply (new_entries_app logs2). reflexivity.
Qed.

Lemma copy_files_idempotent_after_success_witness :
  copied_count (copy_files demo_fs [] (take 1 demo_pairs))
  + skipped_count (copy_files demo_fs [] (take 1 demo_pairs)) = 1
  /\ skipped_count
       (copy_files (run_fs (copy_files demo_fs [] (take 1 demo_pairs))) []
          (take 1 demo_pairs)) = 1.
Proof.
  split; [vm_compute; reflexivity|].
  apply (copy_files_idempotent_after_success demo_fs [] [] (take 1 demo_pairs)).
  vm_compute; reflexivity.
Defined.

(** C1, as stated, fails: the second pair of the worked run has a
    directory for its source, its copy fails in the first run and fails
    again in the second, so the second run skips one pair of two. *)
Lemma copy_files_twice_counterexample :
  ~ (copied_count (copy_files (run_fs (copy_files demo_fs [] demo_pairs)) [] demo_pairs) = 0
     /\ skipped_count (copy_files (run_fs (copy_files demo_fs [] demo_pairs)) [] demo_pairs)
        = length demo_pairs).
Proof. vm_compute. intros [_ H]. discriminate H. Qed.

(** C4. A pair whose target exists when it is processed is skipped: the
    iteration adds a Skipped entry, increments the skipped count only and
    leaves the file system as it is; the rest of the run does not touch
    the target either, so at the end of the run the target file holds the
    bytes (and the time stamp) it held. *)
Theorem copy_files_never_overwrites (fs : FS) (self_logs : list string)
    (before after : list (string * string)) (s t : string) :
  os.exists_ (run_fs (copy_files fs self_logs before)) t = true ->
  copy_step (copy_files fs self_logs before) (s, t)
  = MkRun (run_fs (copy_files fs self_logs before))
      (app (logs (copy_files fs self_logs before)) [log_skipped s t])
      (copied_count (copy_files fs self_logs before))
      (skipped_count (copy_files fs self_logs before) + 1)
  /\ copy_files fs self_logs (app before ((s, t) :: after))
     = foldl copy_step (copy_step (copy_files fs self_logs before) (s, t)) after
  /\ fs_files (run_fs (copy_files fs self_logs (app before ((s, t) :: after)))) !! t
     = fs_files (run_fs (copy_files fs self_logs before)) !! t.
Proof.
  intros Ht. split; [by apply copy_step_skip|]. split; [by rewrite copy_files_app|].
  rewrite copy_files_app. by apply copy_loop_frame.
Qed.

Lemma copy_files_never_overwrites_witness :
  os.exists_ (run_fs (copy_files demo_fs [] [])) "/tgt/a/report.pdf" = true
  /\ fs_files (run_fs (copy_files demo_fs []
                 [("/src/report.txt", "/tgt/a/report.pdf");
                  ("/src/report.txt", "/tgt/a/report.txt")])) !! "/tgt/a/report.pdf"
     = Some (File "%PDF" 3).
Proof.
  split; [vm_compute; reflexivity|].
  etrans;
    [apply (copy_files_never_overwrites demo_fs [] []
              [("/src/report.txt", "/tgt/a/report.txt")]
              "/src/report.txt" "/tgt/a/report.pdf");
     vm_compute; reflexivity
    |vm_compute; reflexivity].
Defined.

(** C5. A pair whose copy raises an error gets a Failed entry that carries
    the message of the error; neither counter moves and the file system is
    as before; the loop goes on with the pairs that follow, so that the run
    adds one entry for every pair, and the two counters together are the
    number of pairs less the number of Failed entries. *)
Theorem copy_files_failure_recovery (fs : FS) (self_logs : list string)
    (before after : list (string * string)) (s t : string) (e : OSError) :
  os.exists_ (run_fs (copy_files fs self_logs before)) t = false ->
  shutil.copy2 (run_fs (copy_files fs self_logs before)) s t = inl e ->
  copy_step (copy_files fs self_logs before) (s, t)
  = MkRun (run_fs (copy_files fs self_logs before))
      (app (logs (copy_files fs self_logs before))
         ["复制失败：" ++ os_path.basename s ++ " -> " ++ os_path.dirname t
          ++ "，错误：" ++ str_error e])
      (copied_count (copy_files fs self_logs before))
      (skipped_count (copy_files fs self_logs before))
  /\ copy_files fs self_logs (app before ((s, t) :: after))
     = foldl copy_step (copy_step (copy_files fs self_logs before) (s, t)) after
  /\ length (new_entries self_logs (copy_files fs self_logs (app before ((s, t) :: after))))
     = length (app before ((s, t) :: after))
  /\ copied_count (copy_files fs self_logs (app before ((s, t) :: after)))
     + skipped_count (copy_files fs self_logs (app before ((s, t) :: after)))
     = length (app before ((s, t) :: after))
       - failed_count
           (new_entries self_logs (copy_files fs self_logs (app before ((s, t) :: after)))).
Proof.
  intros Ht Hc.
  split; [by apply copy_step_fail|]. split; [by rewrite copy_files_app|].
  unfold copy_files at 1 2 3 4.
  destruct (copy_loop_account (app before ((s, t) :: after))
              (MkRun fs self_logs 0 0)) as (entries & Hlogs & Hall & Hsum).
  cbn [logs copied_count skipped_count] in Hlogs, Hsum.
  rewrite (new_entries_app _ _ _ Hlogs).
  split; [symmetry; by eapply Forall2_length|]. lia.
Qed.

Lemma copy_files_failure_recovery_witness :
  os.exists_ (run_fs (copy_files demo_fs [] (take 1 demo_pairs))) "/tgt/a/notes.txt" = false
  /\ shutil.copy2 (run_fs (copy_files demo_fs [] (take 1 demo_pairs)))
       "/src/notes.txt" "/tgt/a/notes.txt" = inl (IsADirectoryError "/src/notes.txt")
  /\ copied_count (copy_files demo_fs [] (app (take 1 demo_pairs)
                     [("/src/notes.txt", "/tgt/a/notes.txt");
                      ("/src/report.txt", "/tgt/a/report.pdf")]))
     + skipped_count (copy_files demo_fs [] (app (take 1 demo_pairs)
                     [("/src/notes.txt", "/tgt/a/notes.txt");
                      ("/src/report.txt", "/tgt/a/report.pdf")]))
     = 2.
Proof.
  split; [vm_compute; reflexivity|]. split; [vm_compute; reflexivity|].
  etrans;
    [apply (copy_files_failure_recovery demo_fs [] (take 1 demo_pairs)
              [("/src/report.txt", "/tgt/a/report.pdf")]
              "/src/notes.txt" "/tgt/a/notes.txt" (IsADirectoryError "/src/notes.txt"));
     vm_compute; reflexivity
    |vm_compute; reflexivity].
Defined.

(** ** The log block *)

Lemma string_app_cons (x : ascii) (a b : string) : String x a ++ b = String x (a ++ b).
Proof. reflexivity. Qed.

Lemma string_app_nil_r (a : string) : a ++ EmptyString = a.
Proof. induction a as [|x a IH]; [reflexivity|]. by rewrite string_app_cons, IH. Qed.

Lemma string_app_assoc (a b c : string) : (a ++ b) ++ c = a ++ (b ++ c).
Proof. induction a as [|x a IH]; [reflexivity|]. by rewrite !string_app_cons, IH. Qed.

Lemma string_length_app (a b : string) :
  String.length (a ++ b) = String.length a + String.length b.
Proof. induction a as [|x a IH]; [reflexivity|]. rewrite string_app_cons. cbn. by rewrite IH. Qed.

Lemma take_drop (n : nat) (s : string) : py.take n s ++ py.drop n s = s.
Proof.
  revert s. induction n as [|n IH]; intros s; [reflexivity|].
  destruct s as [|c s]; [reflexivity|]. cbn [py.take py.drop].
  by rewrite string_app_cons, IH.
Qed.

Lemma take_app_length (a b : string) : py.take (String.length a) (a ++ b) = a.
Proof.
  induction a as [|x a IH]; [reflexivity|].
  rewrite string_app_cons. cbn [String.length py.take]. by rewrite IH.
Qed.

Lemma drop_app_length (a b : string) : py.drop (String.length a) (a ++ b) = b.
Proof.
  induction a as [|x a IH]; [reflexivity|].
  rewrite string_app_cons. cbn [String.length py.drop]. exact IH.
Qed.


















(** The entry with a line feed is what the copier logs for the file of
    that name, which the matcher emits like any other. *)
Example newline_logs_run :
  newline_logs = ["复制成功：a" ++ LF ++ "b.txt -> /tgt/a"].
Proof. vm_compute. reflexivity. Qed.


(** ** Configuration validation *)

Lemma validate_config_false_iff (fs : FS) (config : Config) :
  (validate_config fs config).1 = false
  <-> dir_missing fs (source_dir config)
      \/ dir_missing fs (target_dir config)
      \/ file_extension config = EmptyString.
Proof.
  unfold validate_config, dir_missing.
  rewrite <- !not_true_iff.
  destruct (py.not_ (source_dir config)), (os.isdir fs (source_dir config)),
    (py.not_ (target_dir config)), (os.isdir fs (target_dir config)),
    (py.not_ (file_extension config)); cbn; intuition congruence.
Qed.

(** C6. [validate_config] fails exactly when the source directory or the
    target directory is not given or is not a directory, or the extension is
    empty.  When it fails, [_execute_copy] prints the reason and returns:
    the file system and the log file are as they were, and neither
    directory has been scanned. *)
Theorem validate_config_gate (w : World) :
  ((validate_config (w_fs w) (w_config w)).1 = false
   <-> dir_missing (w_fs w) (source_dir (w_config w))
       \/ dir_missing (w_fs w) (target_dir (w_config w))
       \/ file_extension (w_config w) = EmptyString)
  /\ ((validate_config (w_fs w) (w_config w)).1 = false ->
      _execute_copy w
      = MkWorld (w_config w) (w_fs w) (w_tree w) (w_listdir w) (w_log w) (w_now w)
          (app (w_stdout w)
             [LF ++ "配置错误：" ++ (validate_config (w_fs w) (w_config w)).2;
              "请先修改配置！"])).
Proof.
  split; [apply validate_config_false_iff|].
  unfold _execute_copy.
  destruct (validate_config (w_fs w) (w_config w)) as [is_valid msg].
  cbn [fst snd]. intros ->.
  cbv beta iota delta [negb print w_stdout w_config w_fs w_tree w_listdir w_log w_now].
  by rewrite <- app_assoc.
Qed.

Lemma validate_config_gate_witness :
  (validate_config (w_fs demo_world) (w_config demo_world)).1 = false
  /\ w_stdout (_execute_copy demo_world) = [LF ++ "配置错误：源目录无效"; "请先修改配置！"]
  /\ w_fs (_execute_copy demo_world) = demo_fs.
Proof.
  assert ((validate_config (w_fs demo_world) (w_config demo_world)).1 = false) as Hbad
    by reflexivity.
  split; [exact Hbad|].
  rewrite (proj2 (validate_config_gate demo_world) Hbad). split; reflexivity.
Defined.

(** C10. [validate_config] checks the source directory first, the target
    directory second and the extension last, and answers with the reason of
    the first check that fails: a configuration whose source directory is
    not valid gets the source-directory reason whatever its other two
    fields are. *)
Theorem validate_config_priority (fs : FS) (sd td ext : string) :
  (dir_missing fs sd ->
   validate_config fs (MkConfig sd td ext) = (false, "源目录无效"))
  /\ (~ dir_missing fs sd -> dir_missing fs td ->
      validate_config fs (MkConfig sd td ext) = (false, "目标目录无效"))
  /\ (~ dir_missing fs sd -> ~ dir_missing fs td -> ext = EmptyString ->
      validate_config fs (MkConfig sd td ext) = (false, "文件后缀不能为空"))
  /\ (~ dir_missing fs sd -> ~ dir_missing fs td -> ext <> EmptyString ->
      validate_config fs (MkConfig sd td ext) = (true, "配置有效")).
Proof.
  unfold validate_config, dir_missing. cbn [source_dir target_dir file_extension].
  rewrite <- !not_true_iff.
  destruct (py.not_ sd), (os.isdir fs sd), (py.not_ td), (os.isdir fs td), (py.not_ ext);
    cbn; intuition congruence.
Qed.

Lemma validate_config_priority_witness :
  dir_missing demo_fs "/nowhere"
  /\ validate_config demo_fs (MkConfig "/nowhere" "/also/nowhere" "") = (false, "源目录无效").
Proof.
  assert (dir_missing demo_fs "/nowhere") as Hbad by (right; reflexivity).
  split; [exact Hbad|].
  exact (proj1 (validate_config_priority demo_fs "/nowhere" "/also/nowhere" "") Hbad).
Defined.

(** ** The scenarios of the specification, run *)

(** The pairs of the worked run are what the matcher emits for it: the
    sub-directory [notes.txt] is matched like a file. *)
Example demo_match :
  match_files (build_file_index (DirectoryMatcher_init "/tgt") demo_tree)
    demo_listing "/src" ".txt" = demo_pairs.
Proof. vm_compute. reflexivity. Qed.

(** Scenario A: one match, copied with the content of the source. *)
Example scenario_A :
  let matcher :=
    build_file_index (DirectoryMatcher_init "/tgt") (EDir [("a", EDir [("report.pdf", EFile)])]) in
  let pairs := match_files matcher ["report.txt"] "/src" ".txt" in
  let r := copy_files demo_fs [] pairs in
  pairs = [("/src/report.txt", "/tgt/a/report.txt")]
  /\ (copied_count r, skipped_count r) = (1, 0)
  /\ fs_files (run_fs r) !! "/tgt/a/report.txt" = Some (File "hello" 7).
Proof. vm_compute. repeat split. Qed.

(** Scenario B: the target is there already, so it is skipped and kept. *)
Example scenario_B :
  let fs := MkFS (<["/tgt/a/report.txt" := File "kept" 1]> (fs_files demo_fs))
              (fs_dirs demo_fs) (fs_denied demo_fs) in
  let r := copy_files fs [] [("/src/report.txt", "/tgt/a/report.txt")] in
  (copied_count r, skipped_count r) = (0, 1)
  /\ logs r = ["跳过：report.txt 已存在于 /tgt/a"]
  /\ fs_files (run_fs r) !! "/tgt/a/report.txt" = Some (File "kept" 1).
Proof. vm_compute. repeat split. Qed.

(** Scenario C: two files share a base name; the directory walked last
    is the one the index keeps. *)
Example scenario_C :
  let tree := EDir [("x", EDir [("doc.csv", EFile)]); ("y", EDir [("doc.jpg", EFile)])] in
  let matcher := build_file_index (DirectoryMatcher_init "/tgt") tree in
  os.walk "/tgt" tree = [("/tgt", ["x"; "y"], []); ("/tgt/x", [], ["doc.csv"]);
                         ("/tgt/y", [], ["doc.jpg"])]
  /\ file_index matcher !! "doc" = Some "/tgt/y"
  /\ match_files matcher ["doc.txt"] "/src" ".txt" = [("/src/doc.txt", "/tgt/y/doc.txt")].
Proof. vm_compute. repeat split. Qed.

(** Scenario D: no entry ends with the extension. *)
Example scenario_D :
  match_files (build_file_index (DirectoryMatcher_init "/tgt") demo_tree)
    ["notes.md"] "/src" ".txt" = [].
Proof. reflexivity. Qed.

(** The walk is top-down: a directory before its sub-directories, the
    sub-directories in listing order, each with all that is below it. *)
Example walk_order :
  os.walk "/t"
    (EDir [("b", EDir [("c", EDir [("f.x", EFile)]); ("g.x", EFile)]);
           ("h.x", EFile);
           ("a", EDir [("f.y", EFile)])])
  = [("/t", ["b"; "a"], ["h.x"]); ("/t/b", ["c"], ["g.x"]); ("/t/b/c", [], ["f.x"]);
     ("/t/a", [], ["f.y"])].
Proof. reflexivity. Qed.

Example splitext_cases :
  os_path.splitext "a.tar.gz" = ("a.tar", ".gz")
  /\ os_path.splitext "README" = ("README", "")
  /\ os_path.splitext ".bashrc" = (".bashrc", "")
  /\ os_path.splitext "a." = ("a", ".")
  /\ os_path.splitext "x.d/abc" = ("x.d/abc", "").
Proof. repeat split. Qed.

Example path_cases :
  os_path.basename "/a/b/report.txt" = "report.txt"
  /\ os_path.dirname "/a/b/report.txt" = "/a/b"
  /\ os_path.dirname "/report.txt" = "/"
  /\ os_path.dirname "report.txt" = ""
  /\ os_path.join "/a" "b" = "/a/b"
  /\ os_path.join "/a/" "b" = "/a/b"
  /\ os_path.join "/a" "/b" = "/b".
Proof. repeat split. Qed.

(** * Further properties of the code *)

(** ** What a run of the copier leaves alone *)

Lemma copy_step_dirs st pair :
  fs_dirs (run_fs (copy_step st pair)) = fs_dirs (run_fs st)
  /\ fs_denied (run_fs (copy_step st pair)) = fs_denied (run_fs st).
Proof.
  destruct pair as [s t]. unfold copy_step.
  destruct (os.exists_ (run_fs st) t) eqn:Ht; [done|].
  destruct (shutil.copy2 (run_fs st) s t) as [e|fs'] eqn:Hc; [done|].
  by destruct (copy2_fresh _ _ _ _ Ht Hc) as (f & _ & ->).
Qed.

Lemma copy_loop_dirs pairs st :
  fs_dirs (run_fs (foldl copy_step st pairs)) = fs_dirs (run_fs st)
  /\ fs_denied (run_fs (foldl copy_step st pairs)) = fs_denied (run_fs st).
Proof.
  revert st. induction pairs as [|pair pairs IH]; intros st; [done|].
  cbn [foldl]. destruct (IH (copy_step st pair)) as [-> ->]. apply copy_step_dirs.
Qed.

(** X1. [copy_files] copies and never moves: whatever exists when the run
    starts (a source file, a file of the target tree, a directory) exists
    when it ends, every file with the bytes and the time stamp it had; the
    run creates no directory and removes none. *)
Theorem copy_files_keeps_existing (fs : FS) (self_logs : list string)
    (pairs : list (string * string)) (p : string) :
  os.exists_ fs p = true ->
  os.exists_ (run_fs (copy_files fs self_logs pairs)) p = true
  /\ fs_files (run_fs (copy_files fs self_logs pairs)) !! p = fs_files fs !! p
  /\ fs_dirs (run_fs (copy_files fs self_logs pairs)) = fs_dirs fs.
Proof.
  intros Hp. unfold copy_files.
  destruct (copy_loop_frame pairs (MkRun fs self_logs 0 0) p Hp) as [H1 H2].
  destruct (copy_loop_dirs pairs (MkRun fs self_logs 0 0)) as [H3 _].
  done.
Qed.

Lemma copy_files_keeps_existing_witness :
  os.exists_ demo_fs "/src/report.txt" = true
  /\ fs_files (run_fs (copy_files demo_fs [] demo_pairs)) !! "/src/report.txt"
     = Some (File "hello" 7).
Proof.
  split; [vm_compute; reflexivity|].
  etrans;
    [apply (copy_files_keeps_existing demo_fs [] demo_pairs "/src/report.txt");
     vm_compute; reflexivity
    |vm_compute; reflexivity].
Defined.

Lemma copy_step_new_file st pair p :
  is_Some (fs_files (run_fs (copy_step st pair)) !! p) ->
  is_Some (fs_files (run_fs st) !! p) \/ p = pair.2.
Proof.
  destruct pair as [s t]. unfold copy_step. cbn [snd].
  destruct (os.exists_ (run_fs st) t) eqn:Ht; [by left|].
  destruct (shutil.copy2 (run_fs st) s t) as [e|fs'] eqn:Hc; [by left|].
  destruct (copy2_fresh _ _ _ _ Ht Hc) as (f & _ & ->). cbn.
  destruct (decide (t = p)) as [->|Hne]; [by right|].
  rewrite lookup_insert_ne by done. by left.
Qed.

Lemma copy_loop_new_file pairs st p :
  is_Some (fs_files (run_fs (foldl copy_step st pairs)) !! p) ->
  is_Some (fs_files (run_fs st) !! p) \/ p ∈ pairs.*2.
Proof.
  revert st. induction pairs as [|pair pairs IH]; intros st Hp; [by left|].
  cbn [foldl] in Hp. rewrite fmap_cons.
  destruct (IH _ Hp) as [Hstep|Hin]; [|right; by apply list_elem_of_further].
  destruct (copy_step_new_file _ _ _ Hstep) as [?| ->]; [by left|].
  right. apply list_elem_of_here.
Qed.

(** X2. [copy_files] writes nowhere but at the target paths it is given:
    a file that is there after the run and was not there before is the
    target of one of the pairs. *)
Theorem copy_files_writes_only_targets (fs : FS) (self_logs : list string)
    (pairs : list (string * string)) (p : string) :
  is_Some (fs_files (run_fs (copy_files fs self_logs pairs)) !! p) ->
  is_Some (fs_files fs !! p) \/ p ∈ pairs.*2.
Proof. unfold copy_files. apply copy_loop_new_file. Qed.

Lemma copy_files_writes_only_targets_witness :
  is_Some (fs_files (run_fs (copy_files demo_fs [] demo_pairs)) !! "/tgt/a/report.txt")
  /\ (is_Some (fs_files demo_fs !! "/tgt/a/report.txt")
      \/ "/tgt/a/report.txt" ∈ demo_pairs.*2).
Proof.
  assert (is_Some (fs_files (run_fs (copy_files demo_fs [] demo_pairs))
                     !! "/tgt/a/report.txt")) as Hnew
    by (vm_compute; eauto).
  split; [exact Hnew|].
  exact (copy_files_writes_only_targets demo_fs [] demo_pairs "/tgt/a/report.txt" Hnew).
Defined.

(** X3. A pair that is copied puts at its target the file its source is:
    with a source that is a file when the run starts and a copy that
    succeeds, the target holds at the end of the run the bytes and the
    time stamp of that source, the source is as it was, the iteration adds
    the Copied entry and counts one copy. *)
Theorem copy_files_copies_source (fs : FS) (self_logs : list string)
    (before after : list (string * string)) (s t : string) (f : file) (fs' : FS) :
  fs_files fs !! s = Some f ->
  os.exists_ (run_fs (copy_files fs self_logs before)) t = false ->
  shutil.copy2 (run_fs (copy_files fs self_logs before)) s t = inr fs' ->
  fs_files (run_fs (copy_files fs self_logs (app before ((s, t) :: after)))) !! t = Some f
  /\ fs_files (run_fs (copy_files fs self_logs (app before ((s, t) :: after)))) !! s = Some f
  /\ copy_step (copy_files fs self_logs before) (s, t)
     = MkRun fs'
         (app (logs (copy_files fs self_logs before)) [log_copied s t])
         (copied_count (copy_files fs self_logs before) + 1)
         (skipped_count (copy_files fs self_logs before)).
Proof.
  intros Hs Ht Hc.
  assert (os.exists_ fs s = true) as Hex.
  { unfold os.exists_, os.isfile. rewrite Hs.
    by rewrite bool_decide_eq_true_2 by eauto. }
  assert (copy_step (copy_files fs self_logs before) (s, t)
          = MkRun fs' (app (logs (copy_files fs self_logs before)) [log_copied s t])
              (copied_count (copy_files fs self_logs before) + 1)
              (skipped_count (copy_files fs self_logs before))) as Hstep
    by (unfold copy_step; by rewrite Ht, Hc).
  destruct (copy_loop_frame before (MkRun fs self_logs 0 0) s Hex) as [_ Hs1].
  fold (copy_files fs self_logs before) in Hs1. cbn [run_fs] in Hs1.
  destruct (copy2_fresh _ _ _ _ Ht Hc) as (f1 & Hf1 & Hfs').
  assert (f1 = f) as -> by congruence.
  assert (fs_files fs' !! t = Some f) as Ht' by (rewrite Hfs'; cbn; apply lookup_insert_eq).
  assert (os.exists_ fs' t = true) as Hext.
  { unfold os.exists_, os.isfile. rewrite Ht'. by rewrite bool_decide_eq_true_2 by eauto. }
  split; [|split; [|exact Hstep]].
  - rewrite copy_files_app. cbn [foldl]. rewrite Hstep.
    destruct (copy_loop_frame after
                (MkRun fs' (app (logs (copy_files fs self_logs before)) [log_copied s t])
                   (copied_count (copy_files fs self_logs before) + 1)
                   (skipped_count (copy_files fs self_logs before))) t Hext) as [_ ->].
    exact Ht'.
  - unfold copy_files.
    destruct (copy_loop_frame (app before ((s, t) :: after))
                (MkRun fs self_logs 0 0) s Hex) as [_ ->].
    exact Hs.
Qed.

Lemma copy_files_copies_source_witness :
  fs_files demo_fs !! "/src/report.txt" = Some (File "hello" 7)
  /\ os.exists_ (run_fs (copy_files demo_fs [] [])) "/tgt/a/report.txt" = false
  /\ fs_files (run_fs (copy_files demo_fs [] demo_pairs)) !! "/tgt/a/report.txt"
     = Some (File "hello" 7).
Proof.
  split; [vm_compute; reflexivity|]. split; [vm_compute; reflexivity|].
  eapply (copy_files_copies_source demo_fs [] [] (drop 1 demo_pairs)
            "/src/report.txt" "/tgt/a/report.txt");
    vm_compute; reflexivity.
Defined.

(** ** The index and the tree it is built from *)

Lemma elem_of_occurrences triples b d :
  (b, d) ∈ occurrences triples
  <-> exists dirs files file,
        (d, dirs, files) ∈ triples /\ file ∈ files /\ base_name file = b.
Proof.
  unfold occurrences. rewrite list_elem_of_bind. split.
  - intros ([[root dirs] files] & Hin & Ht). cbn in Hin.
    apply list_elem_of_fmap in Hin as (file & [= -> ->] & Hfile). eauto 6.
  - intros (dirs & files & file & Ht & Hfile & <-).
    exists (d, dirs, files). split; [|exact Ht]. cbn.
    apply list_elem_of_fmap. eauto.
Qed.

Lemma elem_of_filter_bool {A} (P : A -> bool) (l : list A) (x : A) :
  x ∈ List.filter P l <-> x ∈ l /\ P x = true.
Proof. rewrite !list_elem_of_In. apply filter_In. Qed.

Lemma last_dir_Some b d occ : last_dir b occ = Some d -> (b, d) ∈ occ.
Proof.
  unfold last_dir. intros Hlast.
  apply fmap_Some in Hlast as ([b' d'] & Hlast & ->).
  apply last_Some_elem_of, elem_of_filter_bool in Hlast as [Hin Hb].
  apply bool_decide_eq_true in Hb. cbn in Hb. by subst.
Qed.

Lemma last_dir_is_Some b d occ : (b, d) ∈ occ -> is_Some (last_dir b occ).
Proof.
  unfold last_dir. intros Hin. apply fmap_is_Some, last_is_Some.
  intros Hnil.
  assert ((b, d) ∈ List.filter (fun o => bool_decide (o.1 = b)) occ) as Hf
    by (apply elem_of_filter_bool; split; [done | by apply bool_decide_eq_true]).
  rewrite Hnil in Hf. by apply elem_of_nil in Hf.
Qed.

Lemma index_lookup self tree b :
  file_index (build_file_index self tree) !! b
  = match last_dir b (occurrences (os.walk (dm_target_dir self) tree)) with
    | Some d => Some d
    | None => file_index self !! b
    end.
Proof. cbn. by rewrite index_walk_occurrences, record_occurrences_lookup. Qed.

(** X4. The index of a fresh matcher holds the base names of the files of
    the target tree and nothing else: an entry [b -> d] means that the walk
    found in directory [d] a file whose base name is [b], and every file
    the walk found has its base name as a key. *)
Theorem file_index_entries_are_files (target_dir : string) (tree : Entry) :
  (forall b d,
     file_index (build_file_index (DirectoryMatcher_init target_dir) tree) !! b = Some d ->
     exists dirs files file,
       (d, dirs, files) ∈ os.walk target_dir tree /\ file ∈ files /\ base_name file = b)
  /\ (forall root dirs files file,
        (root, dirs, files) ∈ os.walk target_dir tree -> file ∈ files ->
        is_Some (file_index (build_file_index (DirectoryMatcher_init target_dir) tree)
                   !! base_name file)).
Proof.
  split.
  - intros b d. rewrite index_lookup. cbn [dm_target_dir DirectoryMatcher_init file_index].
    destruct (last_dir b _) as [d'|] eqn:Hlast; [|by rewrite lookup_empty].
    intros [= ->]. by apply elem_of_occurrences, last_dir_Some.
  - intros root dirs files file Ht Hfile. rewrite index_lookup.
    cbn [dm_target_dir DirectoryMatcher_init file_index].
    destruct (last_dir_is_Some (base_name file) root
                (occurrences (os.walk target_dir tree))) as [d Hd].
    { apply elem_of_occurrences. by exists dirs, files, file. }
    rewrite Hd. eauto.
Qed.

Lemma record_occurrences_dom occ (index : gmap string string) :
  dom (foldl record_occurrence index occ) = list_to_set occ.*1 ∪ dom index.
Proof.
  revert index. induction occ as [|[b d] occ IH]; intros index; cbn [foldl].
  - cbn. by rewrite union_empty_l_L.
  - rewrite IH. unfold record_occurrence. cbn [fst snd]. rewrite dom_insert_L.
    rewrite fmap_cons, list_to_set_cons. cbn [fst].
    by rewrite (assoc_L (∪)), (comm_L (∪) _ {[b]}).
Qed.

Lemma remove_dups_length_le {A} `{EqDecision A} (l : list A) :
  length (remove_dups l) <= length l.
Proof.
  induction l as [|x l IH]; cbn; [lia|].
  destruct (decide_rel elem_of x l); cbn; lia.
Qed.

(** X5. The number of index entries, which [_execute_copy] prints as the
    number of indexed files, is the number of distinct base names among
    the files of the target tree; it is at most the number of files. *)
Theorem file_index_size (target_dir : string) (tree : Entry) :
  size (file_index (build_file_index (DirectoryMatcher_init target_dir) tree))
  = length (remove_dups (occurrences (os.walk target_dir tree)).*1)
  /\ size (file_index (build_file_index (DirectoryMatcher_init target_dir) tree))
     <= length (occurrences (os.walk target_dir tree)).
Proof.
  assert (size (file_index (build_file_index (DirectoryMatcher_init target_dir) tree))
          = length (remove_dups (occurrences (os.walk target_dir tree)).*1)) as Hsize.
  { cbn. rewrite index_walk_occurrences.
    rewrite <- size_dom, record_occurrences_dom, dom_empty_L, union_empty_r_L.
    rewrite <- (size_list_to_set (C := gset string)) by apply NoDup_remove_dups.
    f_equal. apply set_eq. intros b.
    by rewrite !elem_of_list_to_set, elem_of_remove_dups. }
  split; [exact Hsize|]. rewrite Hsize.
  etrans; [apply remove_dups_length_le|]. by rewrite length_fmap.
Qed.

(** X6. [build_file_index] never clears [self.file_index]: on a matcher
    that already holds an index, a base name that occurs in the tree gets
    the directory of its last occurrence and any other key keeps the
    directory it had.  Building the index of one tree a second time
    therefore changes nothing. *)
Theorem build_file_index_accumulates (self : DirectoryMatcher) (tree : Entry) :
  (forall b,
     file_index (build_file_index self tree) !! b
     = match last_dir b (occurrences (os.walk (dm_target_dir self) tree)) with
       | Some d => Some d
       | None => file_index self !! b
       end)
  /\ build_file_index (build_file_index self tree) tree = build_file_index self tree.
Proof.
  split; [intros b; apply index_lookup|].
  destruct self as [td index]. unfold build_file_index. cbn [dm_target_dir file_index].
  f_equal. rewrite !index_walk_occurrences. apply map_eq. intros b.
  rewrite !record_occurrences_lookup.
  by destruct (last_dir b (occurrences (os.walk td tree))).
Qed.

(** X7. From index to match: every pair [match_files] returns for the
    index of a target tree comes from a listing entry that ends with the
    extension, has that entry as the name of both paths, and has for the
    directory of its target a directory of the tree in which the walk
    found a file with the base name of the entry. *)
Theorem match_routes_to_tree (target_dir : string) (tree : Entry) (listing : list string)
    (source_dir file_extension s t : string) :
  (s, t) ∈ match_files (build_file_index (DirectoryMatcher_init target_dir) tree)
             listing source_dir file_extension ->
  exists file d dirs files file',
    file ∈ listing
    /\ py.endswith file file_extension = true
    /\ s = os_path.join source_dir file
    /\ t = os_path.join d file
    /\ (d, dirs, files) ∈ os.walk target_dir tree
    /\ file' ∈ files
    /\ base_name file' = base_name file.
Proof.
  unfold match_files. rewrite match_loop_spec. cbn [app]. unfold matched_pairs.
  intros (file & Hpair & Hin)%list_elem_of_fmap.
  apply elem_of_filter_bool in Hin as [Hin Hm].
  unfold is_matched in Hm. apply andb_true_iff in Hm as [Hend Hkey].
  apply bool_decide_eq_true in Hkey as [d Hd].
  unfold pair_of in Hpair. rewrite (lookup_total_correct _ _ _ Hd) in Hpair.
  injection Hpair as -> ->.
  rewrite index_lookup in Hd. cbn [dm_target_dir DirectoryMatcher_init file_index] in Hd.
  destruct (last_dir (base_name file) _) as [d'|] eqn:Hlast;
    [|by rewrite lookup_empty in Hd].
  injection Hd as ->.
  apply last_dir_Some, elem_of_occurrences in Hlast as (dirs & files & file' & ? & ? & ?).
  exists file, d, dirs, files, file'. done.
Qed.

Lemma match_routes_to_tree_witness :
  ("/src/report.txt", "/tgt/a/report.txt")
    ∈ match_files (build_file_index (DirectoryMatcher_init "/tgt") demo_tree)
        demo_listing "/src" ".txt"
  /\ exists file d dirs files file',
       file ∈ demo_listing
       /\ py.endswith file ".txt" = true
       /\ "/src/report.txt" = os_path.join "/src" file
       /\ "/tgt/a/report.txt" = os_path.join d file
       /\ (d, dirs, files) ∈ os.walk "/tgt" demo_tree
       /\ file' ∈ files
       /\ base_name file' = base_name file.
Proof.
  assert (("/src/report.txt", "/tgt/a/report.txt")
            ∈ match_files (build_file_index (DirectoryMatcher_init "/tgt") demo_tree)
                demo_listing "/src" ".txt") as Hin
    by (vm_compute; apply list_elem_of_here).
  split; [exact Hin|].
  exact (match_routes_to_tree "/tgt" demo_tree demo_listing "/src" ".txt" _ _ Hin).
Defined.

(** ** Names and paths *)

Lemma has_char_app (c : ascii) (a b : string) :
  has_char c (a ++ b) = has_char c a || has_char c b.
Proof.
  induction a as [|x a IH]; [reflexivity|].
  rewrite string_app_cons. cbn [has_char]. by rewrite IH, orb_assoc.
Qed.

Lemma rfind_from_absent (c : ascii) (s : string) (i found : Z) :
  has_char c s = false -> py.rfind_from c s i found = found.
Proof.
  revert i found. induction s as [|a s IH]; intros i found; [reflexivity|].
  cbn [has_char py.rfind_from]. intros [Ha Hs]%orb_false_iff. rewrite Ha. by apply IH.
Qed.

Lemma rfind_from_app (c : ascii) (a b : string) (i found : Z) :
  py.rfind_from c (a ++ b) i found
  = py.rfind_from c b (i + Z.of_nat (String.length a)) (py.rfind_from c a i found).
Proof.
  revert i found. induction a as [|x a IH]; intros i found.
  - cbn. by rewrite Z.add_0_r.
  - rewrite string_app_cons. cbn [py.rfind_from String.length]. rewrite IH.
    f_equal. lia.
Qed.

(** The last occurrence of [c] is where nothing but [c]-free text follows. *)
Lemma rfind_last (c : ascii) (a b : string) :
  has_char c b = false ->
  py.rfind (a ++ String c b) c = Z.of_nat (String.length a).
Proof.
  intros Hb. unfold py.rfind. rewrite rfind_from_app. cbn [py.rfind_from].
  rewrite Ascii.eqb_refl. rewrite rfind_from_absent by exact Hb. lia.
Qed.

Lemma rfind_absent (c : ascii) (s : string) :
  has_char c s = false -> py.rfind s c = (-1)%Z.
Proof. apply rfind_from_absent. Qed.

Lemma endswith_inv (s suffix : string) :
  py.endswith s suffix = true -> exists pre, s = pre ++ suffix.
Proof.
  unfold py.endswith. intros [_ Heq]%andb_true_iff. apply String.eqb_eq in Heq.
  exists (py.take (String.length s - String.length suffix) s).
  rewrite <- Heq at 2. symmetry. apply take_drop.
Qed.

Lemma endswith_app (a b : string) : py.endswith (a ++ b) b = true.
Proof.
  unfold py.endswith. rewrite string_length_app. apply andb_true_iff. split.
  - apply Nat.leb_le. lia.
  - replace (String.length a + String.length b - String.length b) with (String.length a)
      by lia.
    rewrite drop_app_length. apply String.eqb_refl.
Qed.

Lemma startswith_slash (s : string) :
  has_char os_path.sep s = false -> py.startswith s "/" = false.
Proof.
  destruct s as [|c s]; [reflexivity|]. cbn [has_char py.startswith].
  intros [Hc _]%orb_false_iff. change os_path.sep with "/"%char in Hc.
  rewrite Ascii.eqb_sym, Hc. reflexivity.
Qed.

Lemma basename_after_slash (x file : string) :
  has_char os_path.sep file = false ->
  os_path.basename (x ++ "/" ++ file) = file.
Proof.
  intros Hfile. unfold os_path.basename.
  change (x ++ "/" ++ file) with (x ++ String os_path.sep file).
  rewrite rfind_last by exact Hfile.
  replace (Z.to_nat (Z.of_nat (String.length x) + 1)) with (String.length (x ++ "/"))
    by (rewrite string_length_app; cbn; lia).
  change (x ++ String os_path.sep file) with (x ++ "/" ++ file).
  rewrite <- string_app_assoc. apply drop_app_length.
Qed.

Lemma basename_plain (file : string) :
  has_char os_path.sep file = false -> os_path.basename file = file.
Proof. intros Hfile. unfold os_path.basename. by rewrite rfind_absent. Qed.

Lemma basename_of_join (dir file : string) :
  has_char os_path.sep file = false ->
  os_path.basename (os_path.join dir file) = file.
Proof.
  intros Hfile. unfold os_path.join. rewrite startswith_slash by exact Hfile.
  destruct (py.not_ dir) eqn:Hdir.
  - apply not_true_iff in Hdir as ->. cbn [orb]. by apply basename_plain.
  - cbn [orb]. destruct (py.endswith dir "/") eqn:Hend.
    + apply endswith_inv in Hend as [pre ->]. rewrite string_app_assoc.
      by apply basename_after_slash.
    + by apply basename_after_slash.
Qed.

Lemma filter_bool_NoDup {A} (P : A -> bool) (l : list A) :
  NoDup l -> NoDup (List.filter P l).
Proof. rewrite !NoDup_ListNoDup. apply List.NoDup_filter. Qed.

Lemma filter_bool_Forall {A} (P : A -> bool) (Q : A -> Prop) (l : list A) :
  Forall Q l -> Forall Q (List.filter P l).
Proof.
  rewrite !Forall_forall. intros Hall x Hx. apply Hall.
  by apply elem_of_filter_bool in Hx as [? _].
Qed.

(** X9. Distinct listing entries never meet at one target: when the
    listing holds no name twice and no name with a slash, as [os.listdir]
    gives it, the source paths of the pairs of [match_files] are pairwise
    distinct and so are the target paths. *)
Theorem match_files_paths_distinct (self : DirectoryMatcher) (listing : list string)
    (source_dir file_extension : string) :
  NoDup listing ->
  Forall (fun file => has_char os_path.sep file = false) listing ->
  NoDup (match_files self listing source_dir file_extension).*1
  /\ NoDup (match_files self listing source_dir file_extension).*2.
Proof.
  intros Hnodup Hfree. unfold match_files. rewrite match_loop_spec. cbn [app].
  unfold matched_pairs.
  set (kept := List.filter (is_matched (file_index self) file_extension) listing).
  assert (NoDup kept) as Hkept by by apply filter_bool_NoDup.
  assert (Forall (fun file => has_char os_path.sep file = false) kept) as Hkfree
    by by apply filter_bool_Forall.
  split.
  - apply (NoDup_fmap_1 os_path.basename). rewrite <- !list_fmap_compose.
    erewrite (Forall_fmap_ext_1 _ id); [by rewrite list_fmap_id|].
    eapply Forall_impl; [exact Hkfree|]. intros file Hfile. cbn.
    by apply basename_of_join.
  - apply (NoDup_fmap_1 os_path.basename). rewrite <- !list_fmap_compose.
    erewrite (Forall_fmap_ext_1 _ id); [by rewrite list_fmap_id|].
    eapply Forall_impl; [exact Hkfree|]. intros file Hfile. cbn.
    by apply basename_of_join.
Qed.

Lemma match_files_paths_distinct_witness :
  NoDup demo_listing
  /\ NoDup (match_files (build_file_index (DirectoryMatcher_init "/tgt") demo_tree)
              demo_listing "/src" ".txt").*2.
Proof.
  assert (NoDup demo_listing) as Hnodup by (apply (bool_decide_unpack _); vm_compute; exact I).
  split; [exact Hnodup|].
  apply (match_files_paths_distinct _ demo_listing "/src" ".txt" Hnodup).
  repeat constructor.
Defined.

Lemma rstrip_times (n : nat) : py.rstrip (py.times os_path.sep n) os_path.sep = EmptyString.
Proof. induction n as [|n IH]; [reflexivity|]. cbn [py.times py.rstrip]. by rewrite IH. Qed.

Lemma rstrip_slash_end (d : string) :
  py.rstrip (d ++ "/") os_path.sep = py.rstrip d os_path.sep.
Proof.
  induction d as [|a d IH]; [reflexivity|].
  rewrite string_app_cons. cbn [py.rstrip]. by rewrite IH.
Qed.

Lemma endswith_cons (a b : ascii) (s : string) :
  py.endswith (String a (String b s)) "/" = py.endswith (String b s) "/".
Proof.
  unfold py.endswith. cbn [String.length Nat.leb Nat.sub andb].
  by rewrite !Nat.sub_0_r.
Qed.

Lemma rstrip_no_slash_end (d : string) :
  py.endswith d "/" = false -> py.rstrip d os_path.sep = d.
Proof.
  induction d as [|a d IH]; [reflexivity|]. intros Hend. destruct d as [|b d].
  - cbn [py.rstrip]. destruct (Ascii.eqb a os_path.sep) eqn:Ha; [|reflexivity].
    apply Ascii.eqb_eq in Ha as ->. discriminate Hend.
  - rewrite endswith_cons in Hend. cbn [py.rstrip] in *. rewrite (IH Hend). reflexivity.
Qed.

Lemma dirname_of_join (dir file : string) :
  has_char os_path.sep file = false ->
  dir <> EmptyString ->
  py.endswith dir "/" = false ->
  os_path.dirname (os_path.join dir file) = dir.
Proof.
  intros Hfile Hdir Hend. unfold os_path.join.
  rewrite startswith_slash by exact Hfile. rewrite Hend.
  destruct (py.not_ dir) eqn:Hnot; [by apply not_true_iff in Hnot|]. cbn [orb].
  unfold os_path.dirname.
  change (dir ++ "/" ++ file) with (dir ++ String os_path.sep file).
  rewrite rfind_last by exact Hfile.
  replace (Z.to_nat (Z.of_nat (String.length dir) + 1)) with (String.length (dir ++ "/"))
    by (rewrite string_length_app; cbn; lia).
  change (dir ++ String os_path.sep file) with (dir ++ "/" ++ file).
  rewrite <- string_app_assoc, take_app_length.
  assert (py.rstrip (dir ++ "/") os_path.sep = dir) as Hstrip
    by (by rewrite rstrip_slash_end, rstrip_no_slash_end).
  destruct (String.eqb (dir ++ "/") (py.times os_path.sep (String.length (dir ++ "/"))))
    eqn:Hall.
  - apply String.eqb_eq in Hall. rewrite Hall, rstrip_times in Hstrip. congruence.
  - destruct (dir ++ "/") eqn:Hhead; [by destruct dir|]. cbn [py.not_ negb andb].
    exact Hstrip.
Qed.

(** X8. A path the matcher builds takes apart again: for a listing entry
    without a slash, as [os.listdir] gives them, [basename] of
    [join dir entry] is the entry, whatever [dir] is; and when [dir] is not
    empty and does not end with a slash, [dirname] of it is [dir]. *)
Theorem join_takes_apart (dir file : string) :
  has_char os_path.sep file = false ->
  os_path.basename (os_path.join dir file) = file
  /\ (dir <> EmptyString -> py.endswith dir "/" = false ->
      os_path.dirname (os_path.join dir file) = dir).
Proof.
  intros Hfile. split; [by apply basename_of_join|]. intros Hdir Hend.
  by apply dirname_of_join.
Qed.

Lemma join_takes_apart_witness :
  has_char os_path.sep "report.txt" = false
  /\ os_path.basename (os_path.join "/src/" "report.txt") = "report.txt".
Proof.
  split; [reflexivity|]. apply (join_takes_apart "/src/" "report.txt"). reflexivity.
Defined.

(** X10. What a log line shows: for a listing entry without a slash and an
    index directory that is not empty and does not end with a slash, the
    three lines of [copy_files] for the pair the matcher built name the
    entry itself and that directory. *)
Theorem log_lines_name_entry_and_directory (source_dir dir file : string) (e : OSError) :
  has_char os_path.sep file = false ->
  dir <> EmptyString ->
  py.endswith dir "/" = false ->
  log_skipped (os_path.join source_dir file) (os_path.join dir file)
  = "跳过：" ++ file ++ " 已存在于 " ++ dir
  /\ log_copied (os_path.join source_dir file) (os_path.join dir file)
     = "复制成功：" ++ file ++ " -> " ++ dir
  /\ log_failed (os_path.join source_dir file) (os_path.join dir file) e
     = "复制失败：" ++ file ++ " -> " ++ dir ++ "，错误：" ++ str_error e.
Proof.
  intros Hfile Hdir Hend. unfold log_skipped, log_copied, log_failed.
  by rewrite basename_of_join, dirname_of_join.
Qed.

Lemma log_lines_name_entry_and_directory_witness :
  has_char os_path.sep "report.txt" = false
  /\ "/tgt/a" <> EmptyString
  /\ py.endswith "/tgt/a" "/" = false
  /\ log_copied (os_path.join "/src" "report.txt") (os_path.join "/tgt/a" "report.txt")
     = "复制成功：report.txt -> /tgt/a".
Proof.
  split; [reflexivity|]. split; [discriminate|]. split; [reflexivity|].
  apply (log_lines_name_entry_and_directory "/src" "/tgt/a" "report.txt"
           (FileNotFoundError ""));
    [reflexivity | discriminate | reflexivity].
Defined.

(** X11. [os.path.splitext] only cuts: the base name under which a file is
    indexed and looked up, followed by the extension that was split off,
    is the file name again. *)
Theorem splitext_joins_back (p : string) :
  (os_path.splitext p).1 ++ (os_path.splitext p).2 = p
  /\ base_name p ++ (os_path.splitext p).2 = p.
Proof.
  assert ((os_path.splitext p).1 ++ (os_path.splitext p).2 = p) as Hcut.
  { unfold os_path.splitext. destruct (_ && _); cbn [fst snd].
    - apply take_drop.
    - apply string_app_nil_r. }
  split; exact Hcut.
Qed.

Lemma at1_app_length (a : string) (c : ascii) (b : string) :
  py.at1 (a ++ String c b) (Z.of_nat (String.length a)) = String c EmptyString.
Proof. unfold py.at1. by rewrite Nat2Z.id, drop_app_length. Qed.

Lemma splitext_scan_stem (pre stem rest : string) :
  os_path.splitext_scan (pre ++ stem ++ rest) (Z.of_nat (String.length pre))
    (String.length stem)
  = negb (all_dots stem).
Proof.
  revert pre. induction stem as [|c stem IH]; intros pre; [reflexivity|].
  rewrite string_app_cons. cbn [String.length os_path.splitext_scan all_dots].
  rewrite at1_app_length.
  assert (String.eqb (String c "") "." = Ascii.eqb c os_path.extsep) as ->.
  { change (String.eqb (String c "") ".")
      with (if Ascii.eqb c os_path.extsep then true else false).
    by destruct (Ascii.eqb c os_path.extsep). }
  destruct (Ascii.eqb c os_path.extsep) eqn:Hc; cbn [negb andb]; [|reflexivity].
  specialize (IH (pre ++ String c EmptyString)).
  rewrite string_length_app in IH. cbn [String.length] in IH.
  replace (Z.of_nat (String.length pre + 1)) with (Z.of_nat (String.length pre) + 1)%Z
    in IH by lia.
  rewrite string_app_assoc in IH. exact IH.
Qed.

(** X12. For an extension of the usual form, a dot followed by text with no
    dot and no slash, the suffix test and the base name agree: a name
    [stem ++ "." ++ e], with a stem that has no slash and is not made of
    dots only, passes [endswith] for that extension and is split into the
    stem and the extension, so it is looked up in the index under its
    stem. *)
Theorem splitext_strips_simple_extension (stem e : string) :
  has_char os_path.sep stem = false ->
  all_dots stem = false ->
  has_char os_path.extsep e = false ->
  has_char os_path.sep e = false ->
  py.endswith (stem ++ "." ++ e) ("." ++ e) = true
  /\ os_path.splitext (stem ++ "." ++ e) = (stem, "." ++ e)
  /\ base_name (stem ++ "." ++ e) = stem.
Proof.
  intros Hstem Hdots Hdot Hslash.
  assert (os_path.splitext (stem ++ "." ++ e) = (stem, "." ++ e)) as Hsplit.
  { unfold os_path.splitext.
    assert (py.rfind (stem ++ "." ++ e) os_path.sep = (-1)%Z) as ->.
    { apply rfind_absent. rewrite has_char_app, Hstem.
      change ("." ++ e) with (String os_path.extsep e). cbn [has_char orb].
      by rewrite Hslash. }
    assert (py.rfind (stem ++ "." ++ e) os_path.extsep = Z.of_nat (String.length stem))
      as -> by (by apply rfind_last).
    replace (-1 <? Z.of_nat (String.length stem))%Z with true
      by (symmetry; apply Z.ltb_lt; lia).
    replace (Z.to_nat (Z.of_nat (String.length stem) - (-1 + 1)))
      with (String.length stem) by lia.
    change (-1 + 1)%Z with (Z.of_nat (String.length EmptyString)).
    change (stem ++ "." ++ e) with (EmptyString ++ stem ++ "." ++ e) at 1.
    rewrite splitext_scan_stem, Hdots. cbn [negb andb].
    by rewrite Nat2Z.id, take_app_length, drop_app_length. }
  split; [apply endswith_app|]. split; [exact Hsplit|].
  unfold base_name. by rewrite Hsplit.
Qed.

Lemma splitext_strips_simple_extension_witness :
  has_char os_path.sep "a.tar" = false
  /\ all_dots "a.tar" = false
  /\ has_char os_path.extsep "gz" = false
  /\ has_char os_path.sep "gz" = false
  /\ base_name "a.tar.gz" = "a.tar".
Proof.
  repeat (split; [reflexivity|]).
  apply (splitext_strips_simple_extension "a.tar" "gz"); reflexivity.
Defined.

(** ** The whole run *)

(** X13. A run with a valid configuration that matches no file stops after
    the matching: [_execute_copy] prints its progress lines and the notice
    that there is nothing to copy; it copies nothing and writes no block to
    the log file. *)
Theorem execute_copy_without_matches (w : World) (msg : string) :
  validate_config (w_fs w) (w_config w) = (true, msg) ->
  world_pairs w = [] ->
  _execute_copy w
  = MkWorld (w_config w) (w_fs w) (w_tree w) (w_listdir w) (w_log w) (w_now w)
      (app (w_stdout w)
         [LF ++ "开始执行文件复制...";
          "正在构建目标文件索引...";
          "共索引到 "
          ++ pretty (size (file_index
                             (build_file_index
                                (DirectoryMatcher_init (target_dir (w_config w)))
                                (w_tree w (target_dir (w_config w))))))
          ++ " 个文件";
          "正在匹配源文件...";
          "共匹配到 " ++ pretty 0 ++ " 个文件";
          "没有找到匹配的文件，无需复制！"]).
Proof.
  destruct w as [config fs tree listdir log now out].
  cbn [w_stdout w_config w_fs w_tree w_listdir w_log w_now].
  intros Hvalid Hnone. unfold world_pairs in Hnone.
  cbn [w_stdout w_config w_fs w_tree w_listdir w_log w_now] in Hnone.
  unfold _execute_copy. cbn [w_stdout w_config w_fs w_tree w_listdir w_log w_now].
  rewrite Hvalid.
  cbv beta iota zeta delta
    [negb print commit w_stdout w_config w_fs w_tree w_listdir w_log w_now].
  rewrite Hnone. cbv beta iota. cbn [length]. by rewrite <- !app_assoc.
Qed.

Lemma execute_copy_without_matches_witness :
  validate_config (w_fs demo_world_md) (w_config demo_world_md) = (true, "配置有效")
  /\ world_pairs demo_world_md = []
  /\ w_log (_execute_copy demo_world_md) = "kept".
Proof.
  assert (validate_config (w_fs demo_world_md) (w_config demo_world_md)
          = (true, "配置有效")) as Hvalid by (vm_compute; reflexivity).
  assert (world_pairs demo_world_md = []) as Hnone by (vm_compute; reflexivity).
  split; [exact Hvalid|]. split; [exact Hnone|].
  rewrite (execute_copy_without_matches demo_world_md "配置有效" Hvalid Hnone).
  reflexivity.
Defined.



(** ** The stored configuration *)

Lemma key_match_other (c : ascii) (s : string) :
  Ascii.eqb c configparser.percent = false -> configparser.key_match (String c s) = None.
Proof. intros Hc. destruct s as [|c' s]; [reflexivity|]. cbn. by rewrite Hc. Qed.

Lemma remove_escaped_plain (value : string) :
  plain value = true -> configparser.remove_escaped value = value.
Proof.
  unfold plain. induction value as [|c value IH]; [reflexivity|].
  cbn [has_char]. rewrite negb_true_iff, orb_false_iff. intros [Hc Hrest].
  cbn [configparser.remove_escaped]. destruct value as [|c' value]; [reflexivity|].
  rewrite Hc. cbn [andb]. f_equal. apply IH. by rewrite Hrest.
Qed.

Lemma remove_keys_plain (value : string) :
  plain value = true -> configparser.remove_keys 0 value = value.
Proof.
  unfold plain. induction value as [|c value IH]; [reflexivity|].
  cbn [has_char]. rewrite negb_true_iff, orb_false_iff. intros [Hc Hrest].
  cbn [configparser.remove_keys]. rewrite key_match_other by exact Hc.
  f_equal. apply IH. by rewrite Hrest.
Qed.

Lemma set_plain (defaults : gmap string string) (opt value : string) :
  plain value = true ->
  configparser.set defaults opt value
  = inr (<[configparser.optionxform opt := value]> defaults).
Proof.
  intros Hplain. unfold configparser.set. destruct (py.not_ value); [reflexivity|].
  unfold configparser.before_set.
  rewrite remove_escaped_plain, remove_keys_plain by exact Hplain.
  unfold plain in Hplain. apply negb_true_iff in Hplain. by rewrite Hplain.
Qed.

Lemma interpolate_rest_plain deeper (map : gmap string string) (value : string) :
  plain value = true -> configparser.interpolate_rest deeper map 0 value = inr value.
Proof.
  unfold plain. induction value as [|c value IH]; [reflexivity|].
  cbn [has_char]. rewrite negb_true_iff, orb_false_iff. intros [Hc Hrest].
  cbn [configparser.interpolate_rest]. rewrite Hc. cbn [negb].
  rewrite IH by (by rewrite Hrest). reflexivity.
Qed.

Lemma get_plain (defaults : gmap string string) (opt value : string) :
  defaults !! configparser.optionxform opt = Some value ->
  plain value = true ->
  configparser.get defaults opt = inr value.
Proof.
  intros Hraw Hplain. unfold configparser.get. rewrite Hraw.
  unfold configparser.before_get. cbn [configparser.MAX_INTERPOLATION_DEPTH
                                         configparser.interpolate_some].
  by apply interpolate_rest_plain.
Qed.






Lemma remove_escaped_other (c : ascii) (s : string) :
  Ascii.eqb c configparser.percent = false ->
  configparser.remove_escaped (String c s) = String c (configparser.remove_escaped s).
Proof.
  intros Hc. cbn [configparser.remove_escaped]. destruct s as [|c' s]; [reflexivity|].
  by rewrite Hc.
Qed.

Lemma remove_escaped_unpaired (c c' : ascii) (s : string) :
  Ascii.eqb c' configparser.percent = false ->
  configparser.remove_escaped (String c (String c' s))
  = String c (configparser.remove_escaped (String c' s)).
Proof.
  intros Hc'. cbn [configparser.remove_escaped]. by rewrite Hc', andb_false_r.
Qed.

Lemma key_match_no_paren (c c' : ascii) (s : string) :
  Ascii.eqb c' "(" = false -> configparser.key_match (String c (String c' s)) = None.
Proof. intros Hc'. cbn [configparser.key_match]. by rewrite Hc', andb_false_r. Qed.

Lemma remove_keys_keep (c : ascii) (s : string) :
  configparser.key_match (String c s) = None ->
  configparser.remove_keys 0 (String c s) = String c (configparser.remove_keys 0 s).
Proof. intros Hnone. cbn [configparser.remove_keys]. by rewrite Hnone. Qed.

Lemma stray_percent_kept (value : string) :
  stray_percent value = true ->
  has_char configparser.percent
    (configparser.remove_keys 0 (configparser.remove_escaped value)) = true.
Proof.
  induction value as [|c value IH]; [discriminate|]. cbn [stray_percent].
  destruct (Ascii.eqb c configparser.percent) eqn:Hc.
  - apply Ascii.eqb_eq in Hc as ->. destruct value as [|c' value]; [reflexivity|].
    intros [Hp Hparen]%andb_true_iff. apply negb_true_iff in Hp, Hparen.
    rewrite remove_escaped_unpaired by exact Hp.
    rewrite remove_escaped_other by exact Hp.
    rewrite remove_keys_keep by (by apply key_match_no_paren).
    cbn [has_char]. by rewrite Ascii.eqb_refl.
  - intros Hstray. rewrite remove_escaped_other by exact Hc.
    rewrite remove_keys_keep by (by apply key_match_other).
    cbn [has_char]. rewrite (IH Hstray). apply orb_true_r.
Qed.

Lemma set_stray_percent (defaults : gmap string string) (opt value : string) :
  stray_percent value = true ->
  configparser.set defaults opt value = inl (configparser.ValueError value).
Proof.
  intros Hstray. unfold configparser.set.
  destruct value as [|c value]; [discriminate|]. cbn [py.not_].
  unfold configparser.before_set. by rewrite stray_percent_kept.
Qed.

(** X17. A setting with a stray percent sign cannot be stored: when the
    first percent sign of a value is followed by neither a percent sign nor
    an opening parenthesis, [update_config] raises [ValueError] at that
    assignment and never reaches the write of the file.  Raised for the
    source directory, it leaves the manager as it was; raised for the
    target directory, it leaves the source directory already replaced in
    memory, the extension not assigned and the file not written. *)
Theorem update_config_stray_percent (self : ConfigManager) (s bad : string)
    (td ext : option string) :
  plain s = true ->
  stray_percent bad = true ->
  update_config self (Some bad) td ext = (self, Some (configparser.ValueError bad))
  /\ update_config self (Some s) (Some bad) ext
     = (MkManager (<["source_dir" := s]> (cm_defaults self)) (cm_file self),
        Some (configparser.ValueError bad)).
Proof.
  intros Ps Hbad. unfold update_config, set_if_given.
  rewrite !set_stray_percent by exact Hbad. split; [reflexivity|].
  rewrite set_plain by exact Ps. by rewrite set_stray_percent by exact Hbad.
Qed.

Lemma update_config_stray_percent_witness :
  plain "/src" = true
  /\ stray_percent "/data/100%" = true
  /\ update_config demo_manager (Some "/src") (Some "/data/100%") (Some ".txt")
     = (MkManager (<["source_dir" := "/src"]> (cm_defaults demo_manager))
          (cm_file demo_manager),
        Some (configparser.ValueError "/data/100%")).
Proof.
  split; [reflexivity|]. split; [reflexivity|].
  apply (update_config_stray_percent demo_manager "/src" "/data/100%" None (Some ".txt"));
    reflexivity.
Defined.

Lemma plain_app (a b : string) : plain a = true -> plain b = true -> plain (a ++ b) = true.
Proof.
  unfold plain. rewrite !negb_true_iff, has_char_app. intros -> ->. reflexivity.
Qed.

Lemma remove_escaped_pair (pre post : string) :
  plain pre = true ->
  plain post = true ->
  configparser.remove_escaped (pre ++ "%%" ++ post) = pre ++ post.
Proof.
  intros Ppre Ppost. induction pre as [|c pre IH].
  - change (EmptyString ++ "%%" ++ post)
      with (String configparser.percent (String configparser.percent post)).
    cbn [configparser.remove_escaped]. rewrite Ascii.eqb_refl. cbn [andb].
    by apply remove_escaped_plain.
  - unfold plain in Ppre. cbn [has_char] in Ppre.
    rewrite negb_true_iff, orb_false_iff in Ppre. destruct Ppre as [Hc Hpre].
    change (String c pre ++ "%%" ++ post) with (String c (pre ++ "%%" ++ post)).
    change (String c pre ++ post) with (String c (pre ++ post)).
    rewrite remove_escaped_other by exact Hc.
    rewrite IH; [reflexivity|]. unfold plain. by rewrite Hpre.
Qed.

Lemma interpolate_rest_pair deeper (map : gmap string string) (pre post : string) :
  plain pre = true ->
  plain post = true ->
  configparser.interpolate_rest deeper map 0 (pre ++ "%%" ++ post)
  = inr (pre ++ "%" ++ post).
Proof.
  intros Ppre Ppost. induction pre as [|c pre IH].
  - change (EmptyString ++ "%%" ++ post)
      with (String configparser.percent (String configparser.percent post)).
    cbn [configparser.interpolate_rest]. rewrite Ascii.eqb_refl. cbn [negb].
    by rewrite interpolate_rest_plain.
  - unfold plain in Ppre. cbn [has_char] in Ppre.
    rewrite negb_true_iff, orb_false_iff in Ppre. destruct Ppre as [Hc Hpre].
    change (String c pre ++ "%%" ++ post) with (String c (pre ++ "%%" ++ post)).
    change (String c pre ++ "%" ++ post) with (String c (pre ++ "%" ++ post)).
    cbn [configparser.interpolate_rest]. rewrite Hc.
    cbn [negb]. rewrite IH; [reflexivity|]. unfold plain. by rewrite Hpre.
Qed.



Lemma stray_percent_single (pre post : string) :
  plain pre = true ->
  plain post = true ->
  py.startswith post "(" = false ->
  stray_percent (pre ++ "%" ++ post) = true.
Proof.
  intros Ppre Ppost Hparen. induction pre as [|c pre IH].
  - change (EmptyString ++ "%" ++ post) with (String configparser.percent post).
    cbn [stray_percent]. rewrite Ascii.eqb_refl. destruct post as [|c' post]; [reflexivity|].
    unfold plain in Ppost. cbn [has_char] in Ppost.
    rewrite negb_true_iff, orb_false_iff in Ppost. destruct Ppost as [Hc' _].
    rewrite Hc'. cbn [negb andb]. cbn [py.startswith] in Hparen.
    rewrite andb_true_r in Hparen. by rewrite Ascii.eqb_sym, Hparen.
  - unfold plain in Ppre. cbn [has_char] in Ppre.
    rewrite negb_true_iff, orb_false_iff in Ppre. destruct Ppre as [Hc Hpre].
    change (String c pre ++ "%" ++ post) with (String c (pre ++ "%" ++ post)).
    cbn [stray_percent]. rewrite Hc. apply IH. unfold plain. by rewrite Hpre.
Qed.

(** X19. What [get_config] returns is not always accepted back by
    [update_config]: after a source directory [pre ++ "%%" ++ post] has
    been stored (plain [pre] and [post], [post] not opening with a
    parenthesis), [get_config] succeeds, but an update with the three
    values it returned, which is what keeping the current values in
    [_modify_config] and saving the loaded values in the window amount to,
    raises [ValueError] and leaves the manager and the file as they
    were. *)
Theorem update_config_rejects_read_back (self : ConfigManager) (pre post t e : string) :
  plain pre = true -> plain post = true -> plain t = true -> plain e = true ->
  py.startswith post "(" = false ->
  get_config (update_config self (Some (pre ++ "%%" ++ post)) (Some t) (Some e)).1
  = inr (MkConfig (pre ++ "%" ++ post) t e)
  /\ update_config (update_config self (Some (pre ++ "%%" ++ post)) (Some t) (Some e)).1
       (Some (pre ++ "%" ++ post)) (Some t) (Some e)
     = ((update_config self (Some (pre ++ "%%" ++ post)) (Some t) (Some e)).1,
        Some (configparser.ValueError (pre ++ "%" ++ post))).
Proof.
  intros Ppre Ppost Pt Pe Hparen.
  assert (configparser.set (cm_defaults self) "source_dir" (pre ++ "%%" ++ post)
          = inr (<["source_dir" := pre ++ "%%" ++ post]> (cm_defaults self))) as Hset.
  { unfold configparser.set.
    assert (py.not_ (pre ++ "%%" ++ post) = false) as -> by by destruct pre.
    unfold configparser.before_set. rewrite remove_escaped_pair by done.
    rewrite remove_keys_plain by by apply plain_app.
    pose proof (plain_app pre post Ppre Ppost) as Hplain. unfold plain in Hplain.
    apply negb_true_iff in Hplain. by rewrite Hplain. }
  split.
  - unfold update_config, set_if_given. rewrite Hset, !set_plain by done.
    cbn [fst]. unfold get_config. cbn [cm_defaults].
    rewrite (get_plain _ "target_dir" t), (get_plain _ "file_extension" e); try done.
    + unfold configparser.get.
      change (configparser.optionxform "source_dir") with "source_dir".
      rewrite !lookup_insert_ne by done. rewrite lookup_insert_eq.
      unfold configparser.before_get.
      cbn [configparser.MAX_INTERPOLATION_DEPTH configparser.interpolate_some].
      by rewrite interpolate_rest_pair.
    + apply lookup_insert_eq.
    + rewrite lookup_insert_ne by done. apply lookup_insert_eq.
  - generalize (update_config self (Some (pre ++ "%%" ++ post)) (Some t) (Some e)).1.
    intros self'. unfold update_config, set_if_given.
    by rewrite set_stray_percent by by apply stray_percent_single.
Qed.

Lemma update_config_rejects_read_back_witness :
  plain "/data/100" = true /\ plain "" = true /\ plain "/tgt" = true /\ plain ".txt" = true
  /\ py.startswith "" "(" = false
  /\ (update_config
        (update_config demo_manager (Some "/data/100%%") (Some "/tgt") (Some ".txt")).1
        (Some "/data/100%") (Some "/tgt") (Some ".txt")).2
     = Some (configparser.ValueError "/data/100%").
Proof.
  repeat (split; [reflexivity|]).
  exact (f_equal snd
           (proj2 (update_config_rejects_read_back demo_manager "/data/100" "" "/tgt" ".txt"
                     eq_refl eq_refl eq_refl eq_refl eq_refl))).
Defined.
